(** * Quality gates and protocol events of the command-center hooks

    A shallow embedding of [.claude-template/hooks/quality_gates.py] (the
    validators, their registry and the command line) and of the event builders
    and the command line of [.claude-template/hooks/protocol_event.py],
    followed by the properties of the gate verdicts and of the events.

    The hooks read loosely typed JSON documents, so the embedding keeps Python's
    dynamic values: a value is [None], a [bool], an [int], a [float], a [str],
    a [list] or a [dict] with string keys, and an operation applied to a value
    of the wrong kind raises, as it does in Python. Floats are the kernel's
    binary64 numbers, so sums such as [0.3 + 0.2 + 0.1] round as they do in
    CPython. A [str] is a [string] whose characters stand for the code points
    below 256. *)

Set Warnings "-inexact-float,-register-all".

From Stdlib Require Import ZArith Ascii String Floats Lia.
From stdpp Require Import base option strings list gmap.

(** ** Python values *)

Module Py.

Inductive pyval : Type :=
| PNone
| PBool (b : bool)
| PInt (z : Z)
| PFloat (f : float)
| PStr (s : string)
| PList (l : list pyval)
| PDict (d : gmap string pyval).

(** The exceptions the hooks' expressions can raise. *)
Inductive exn : Type :=
| TypeError
| AttributeError
| OverflowError
| ValueError
| ZeroDivisionError.

(** A computation returns a value or raises. *)
Inductive result (A : Type) : Type :=
| Ret (a : A)
| Raise (e : exn).
Arguments Ret {A} a.
Arguments Raise {A} e.

(** Sequencing: the first exception raised ends the computation. *)
Definition bind {A B : Type} (m : result A) (k : A -> result B) : result B :=
  match m with
  | Ret a => k a
  | Raise e => Raise e
  end.

Notation "x <- m ;; k" := (bind m (fun x => k))
  (at level 20, m at next level, k at level 200, only parsing).

(** [for x in xs: acc = body(acc, x)], stopping at the first exception. *)
Fixpoint for_each {A S : Type} (body : S -> A -> result S) (xs : list A) (acc : S)
  : result S :=
  match xs with
  | [] => Ret acc
  | x :: xs' => acc' <- body acc x ;; for_each body xs' acc'
  end.

(** *** Numbers *)

(** The numeric tower the hooks meet: [bool] counts as the integers 0 and 1. *)
Inductive number : Type :=
| NInt (z : Z)
| NFloat (f : float).

Definition as_number (v : pyval) : option number :=
  match v with
  | PBool b => Some (NInt (Z.b2z b))
  | PInt z => Some (NInt z)
  | PFloat f => Some (NFloat f)
  | _ => None
  end.

(** Exact comparison of an integer with a float, as CPython does it (the
    integer is not rounded first). [None] when the float is a NaN. *)
Definition Z_SF_compare (z : Z) (f : spec_float) : option comparison :=
  match f with
  | S754_nan => None
  | S754_infinity s => Some (if s then Gt else Lt)
  | S754_zero _ => Some (z ?= 0)%Z
  | S754_finite s m e =>
      let v := if s then Z.neg m else Z.pos m in
      Some (if (0 <=? e)%Z then (z ?= v * 2 ^ e)%Z else (z * 2 ^ (- e) ?= v)%Z)
  end.

Definition float_compare (a b : float) : option comparison :=
  match PrimFloat.compare a b with
  | FEq => Some Eq
  | FLt => Some Lt
  | FGt => Some Gt
  | FNotComparable => None
  end.

Definition num_compare (a b : number) : option comparison :=
  match a, b with
  | NInt x, NInt y => Some (x ?= y)%Z
  | NFloat x, NFloat y => float_compare x y
  | NInt x, NFloat y => Z_SF_compare x (Prim2SF y)
  | NFloat x, NInt y => CompOpp <$> Z_SF_compare y (Prim2SF x)
  end.

Definition num_ge (a b : number) : bool :=
  match num_compare a b with Some Gt | Some Eq => true | _ => false end.
Definition num_gt (a b : number) : bool :=
  match num_compare a b with Some Gt => true | _ => false end.
Definition num_le (a b : number) : bool :=
  match num_compare a b with Some Lt | Some Eq => true | _ => false end.
Definition num_lt (a b : number) : bool :=
  match num_compare a b with Some Lt => true | _ => false end.
Definition num_eq (a b : number) : bool :=
  match num_compare a b with Some Eq => true | _ => false end.

(** [v >= n], [v > n], [v <= n] and [v < n] for a number [n]: every ordering
    test of the hooks has a numeric literal or a float score on its right, so
    the test raises [TypeError] unless [v] is a number too. *)
Definition py_ge (v : pyval) (n : number) : result bool :=
  match as_number v with Some x => Ret (num_ge x n) | None => Raise TypeError end.
Definition py_gt (v : pyval) (n : number) : result bool :=
  match as_number v with Some x => Ret (num_gt x n) | None => Raise TypeError end.
Definition py_le (v : pyval) (n : number) : result bool :=
  match as_number v with Some x => Ret (num_le x n) | None => Raise TypeError end.
Definition py_lt (v : pyval) (n : number) : result bool :=
  match as_number v with Some x => Ret (num_lt x n) | None => Raise TypeError end.

(** [v == n]: never raises; a value that is not a number differs from [n]. *)
Definition py_eq (v : pyval) (n : number) : bool :=
  match as_number v with Some x => num_eq x n | None => false end.

(** [float(z)]: the nearest binary64 number, ties to even; [OverflowError]
    when that is out of range. *)
Definition float_of_Z (z : Z) : result float :=
  let f := SF2Prim (binary_normalize prec emax z 0 false) in
  if is_infinity f then Raise OverflowError else Ret f.

Definition to_float (n : number) : result float :=
  match n with
  | NInt z => float_of_Z z
  | NFloat f => Ret f
  end.

(** [v + f] for a float [f]. *)
Definition py_add (v : pyval) (f : float) : result float :=
  match as_number v with
  | Some n => x <- to_float n ;; Ret (x + f)%float
  | None => Raise TypeError
  end.

Definition SF_of_Z (z : Z) : spec_float :=
  match z with
  | Z0 => S754_zero false
  | Zpos p => S754_finite false p 0
  | Zneg p => S754_finite true p 0
  end.

(** [a / b], Python's true division: two integers give the correctly rounded
    quotient; otherwise both operands become floats. *)
Definition num_truediv (a b : number) : result float :=
  match a, b with
  | NInt x, NInt y =>
      if (y =? 0)%Z then Raise ZeroDivisionError
      else
        let q := SF2Prim (SFdiv prec emax (SF_of_Z x) (SF_of_Z y)) in
        if is_infinity q then Raise OverflowError else Ret q
  | _, _ =>
      x <- to_float a ;;
      y <- to_float b ;;
      if (y =? 0)%float then Raise ZeroDivisionError else Ret (x / y)%float
  end.

Definition py_truediv (a b : pyval) : result float :=
  match as_number a, as_number b with
  | Some x, Some y => num_truediv x y
  | _, _ => Raise TypeError
  end.

(** [min(a, b)] and [max(a, b)] on floats: the first argument is kept unless
    the second is strictly smaller (larger), so a NaN second argument loses. *)
Definition py_min (a b : float) : float := if (b <? a)%float then b else a.
Definition py_max (a b : float) : float := if (a <? b)%float then b else a.

(** *** Truth, length, lookup *)

(** [bool(v)]. *)
Definition truthy (v : pyval) : bool :=
  match v with
  | PNone => false
  | PBool b => b
  | PInt z => negb (z =? 0)%Z
  | PFloat f => negb (f =? 0)%float
  | PStr s => negb (String.eqb s "")
  | PList l => match l with [] => false | _ => true end
  | PDict d => negb (Nat.eqb (size d) 0)
  end.

(** [len(v)]. *)
Definition py_len (v : pyval) : result Z :=
  match v with
  | PStr s => Ret (Z.of_nat (String.length s))
  | PList l => Ret (Z.of_nat (length l))
  | PDict d => Ret (Z.of_nat (size d))
  | _ => Raise TypeError
  end.

(** [d.get(k, dflt)]: only a dict has [get]. *)
Definition py_get (d : pyval) (k : string) (dflt : pyval) : result pyval :=
  match d with
  | PDict m => Ret (default dflt (m !! k))
  | _ => Raise AttributeError
  end.

(** *** Strings *)

(** [c.isspace()] for a code point below 256. *)
Definition is_space (c : ascii) : bool :=
  let n := N_of_ascii c in
  ((9 <=? n) && (n <=? 13) || (28 <=? n) && (n <=? 32) || (n =? 133) || (n =? 160))%N.

(** [s.split()]: the maximal runs of non-space characters. [cur] is the word
    being read. *)
Fixpoint split_from (s : string) (cur : option string) : list string :=
  match s with
  | EmptyString => match cur with Some w => [w] | None => [] end
  | String c s' =>
      if is_space c then
        match cur with
        | Some w => w :: split_from s' None
        | None => split_from s' None
        end
      else split_from s' (Some (default "" cur +:+ String c ""))
  end.
Definition split (s : string) : list string := split_from s None.

(** [c.lower()] for a code point below 256: the ASCII capitals and the
    Latin-1 capitals (all of 192..222 but the multiplication sign). *)
Definition lower_char (c : ascii) : ascii :=
  let n := N_of_ascii c in
  if ((65 <=? n) && (n <=? 90) || (192 <=? n) && (n <=? 222) && negb (n =? 215))%N
  then ascii_of_N (n + 32) else c.

Fixpoint lower (s : string) : string :=
  match s with
  | EmptyString => EmptyString
  | String c s' => String (lower_char c) (lower s')
  end.

(** [sub in s] on strings. *)
Fixpoint contains (sub s : string) : bool :=
  String.prefix sub s ||
  match s with
  | EmptyString => false
  | String _ s' => contains sub s'
  end.

(** [s.replace(a, b)] for single characters. *)
Fixpoint replace_char (a b : ascii) (s : string) : string :=
  match s with
  | EmptyString => EmptyString
  | String c s' => String (if Ascii.eqb c a then b else c) (replace_char a b s')
  end.

Definition py_split (v : pyval) : result (list string) :=
  match v with PStr s => Ret (split s) | _ => Raise AttributeError end.
Definition py_lower (v : pyval) : result string :=
  match v with PStr s => Ret (lower s) | _ => Raise AttributeError end.

Fixpoint chars (s : string) : list pyval :=
  match s with
  | EmptyString => []
  | String c s' => PStr (String c "") :: chars s'
  end.

(** *** Iteration and slicing *)

(** The items [for x in v] visits. *)
Definition py_iter (v : pyval) : result (list pyval) :=
  match v with
  | PList l => Ret l
  | PStr s => Ret (chars s)
  | PDict d => Ret (PStr <$> (map_to_list d).*1)
  | _ => Raise TypeError
  end.

(** The items [for x in v[:n]] visits. *)
Definition py_slice_to (v : pyval) (n : nat) : result (list pyval) :=
  match v with
  | PList l => Ret (take n l)
  | PStr s => Ret (take n (chars s))
  | _ => Raise TypeError
  end.

(** *** Formatted strings *)

(** An f-string is kept as the sequence of its pieces: literal text,
    [{v}] and [{x:.2f}]. *)
Inductive piece : Type :=
| Lit (s : string)
| Fmt (v : pyval)
| Fmt2f (x : number).

Definition text : Type := list piece.

(** [{v:.2f}]: a number is formatted (an integer through [float]); a [str]
    refuses the format code and the other values refuse any format. *)
Definition fmt_2f (v : pyval) : result piece :=
  match as_number v with
  | Some n => _ <- to_float n ;; Ret (Fmt2f n)
  | None => match v with PStr _ => Raise ValueError | _ => Raise TypeError end
  end.

End Py.

(** ** quality_gates.py *)

Module QualityGates.
Import Py.

Definition QUALITY_GATE_THRESHOLD : float := 0.8%float.

(** Result of a quality gate validation. [score] is a Python value: most
    validators store a float, but three of them store a number taken from the
    context. *)
Record QualityGateResult : Type := {
  gate_name : string;
  passed : bool;
  score : pyval;
  threshold : float;
  feedback : text;
  suggestions : list text;
  blocking : bool
}.

(** Context passed to gate validators. *)
Record GateContext : Type := {
  session_id : pyval;
  agent_type : pyval;
  phase : pyval;
  data : pyval;
  history : pyval
}.

(** The two locals every scoring validator updates: [score] and
    [suggestions]. *)
Record tally : Type := {
  points : float;
  advice : list text
}.

(** [score = 0.0; suggestions = []] *)
Definition start : tally := {| points := 0%float; advice := [] |}.
(** [score += w] *)
Definition award (w : float) (t : tally) : tally :=
  {| points := (t.(points) + w)%float; advice := t.(advice) |}.
(** [suggestions.append(s)] *)
Definition suggest (s : text) (t : tally) : tally :=
  {| points := t.(points); advice := t.(advice) ++ [s] |}.

Definition lit (s : string) : text := [Lit s].

(** [min(1.0, max(0.0, score))] *)
Definition clamp (s : float) : float := py_min 1%float (py_max 0%float s).

(** [a >= b] on floats. *)
Definition float_ge (a b : float) : bool := (b <=? a)%float.

(** [v and len(v) > n] as a condition. *)
Definition longer_than (v : pyval) (n : Z) : result bool :=
  if truthy v then k <- py_len v ;; Ret (n <? k)%Z else Ret false.

(** *** Researcher agent gates *)

Definition question_markers : list string :=
  ["how"; "what"; "why"; "which"; "when"; "where"; "can"].

Definition tech_indicators : list string :=
  ["implement"; "architecture"; "pattern"; "performance";
   "security"; "test"; "api"; "component"; "database"].

(** [any(t in query.lower() for t in tokens)] *)
Definition any_in_lower (tokens : list string) (query : pyval) : result bool :=
  lowered <- py_lower query ;;
  Ret (existsb (fun t => contains t lowered) tokens).

Definition validate_input_clarity (ctx : GateContext) : result QualityGateResult :=
  let data := ctx.(data) in
  let t := start in
  query <- py_get data "query" (PStr "") ;;
  if negb (truthy query) then
    Ret {| gate_name := "input_clarity";
           passed := false;
           score := PFloat 0%float;
           threshold := QUALITY_GATE_THRESHOLD;
           feedback := lit "No query provided";
           suggestions := [lit "Provide a research question or topic"];
           blocking := true |}
  else
    words <- py_split query ;;
    let word_count := Z.of_nat (length words) in
    let t := if (5 <=? word_count)%Z then award 0.3%float t else t in
    let t := if (10 <=? word_count)%Z then award 0.2%float t else t in
    let t := if (word_count <=? 100)%Z then award 0.1%float t else t in
    asks <- any_in_lower question_markers query ;;
    let t := if asks then award 0.2%float t
             else suggest (lit "Consider framing as a question for clearer scope") t in
    technical <- any_in_lower tech_indicators query ;;
    let t := if technical then award 0.2%float t
             else suggest (lit "Include specific technical terms to narrow scope") t in
    let score := clamp t.(points) in
    let passed := float_ge score QUALITY_GATE_THRESHOLD in
    Ret {| gate_name := "input_clarity";
           passed := passed;
           score := PFloat score;
           threshold := QUALITY_GATE_THRESHOLD;
           feedback := [Lit "Query clarity score: "; Fmt2f (NFloat score);
                        Lit (if passed then " - Passed" else " - Needs clarification")];
           suggestions := if passed then [] else t.(advice);
           blocking := negb passed && (score <? 0.6)%float |}.

Definition validate_source_coverage (ctx : GateContext) : result QualityGateResult :=
  let data := ctx.(data) in
  let t := start in
  sources_examined <- py_get data "sources_examined" (PInt 0) ;;
  files_read <- py_get data "files_read" (PInt 0) ;;
  web_sources <- py_get data "web_sources" (PInt 0) ;;
  patterns_found <- py_get data "patterns_found" (PInt 0) ;;
  c <- py_ge sources_examined (NInt 3) ;;
  let t := if c then award 0.3%float t else t in
  c <- py_ge sources_examined (NInt 5) ;;
  let t := if c then award 0.2%float t else t in
  c <- py_ge sources_examined (NInt 10) ;;
  let t := if c then award 0.1%float t else t in
  c <- py_gt files_read (NInt 0) ;;
  let t := if c then award 0.15%float t
           else suggest (lit "Search codebase for relevant patterns") t in
  c <- py_gt web_sources (NInt 0) ;;
  let t := if c then award 0.1%float t else t in
  c <- py_ge patterns_found (NInt 2) ;;
  let t := if c then award 0.15%float t else t in
  let score := clamp t.(points) in
  let passed := float_ge score 0.7%float in
  Ret {| gate_name := "source_coverage";
         passed := passed;
         score := PFloat score;
         threshold := 0.7%float;
         feedback := [Lit "Source coverage: "; Fmt sources_examined; Lit " sources, ";
                      Fmt files_read; Lit " files, "; Fmt web_sources; Lit " web";
                      Lit (if passed then " - Adequate" else " - Needs more research")];
         suggestions := if passed then [] else t.(advice);
         blocking := false |}.

Definition validate_synthesis_quality (ctx : GateContext) : result QualityGateResult :=
  let data := ctx.(data) in
  let t := start in
  findings <- py_get data "findings" (PList []) ;;
  recommendations <- py_get data "recommendations" (PList []) ;;
  trade_offs <- py_get data "trade_offs" (PList []) ;;
  confidence <- py_get data "confidence" PNone ;;
  let has_confidence := match confidence with PNone => false | _ => true end in
  n <- py_len findings ;;
  let t := if (1 <=? n)%Z then award 0.2%float t else t in
  n <- py_len findings ;;
  let t := if (3 <=? n)%Z then award 0.15%float t
           else suggest (lit "Document at least 3 key findings") t in
  n <- py_len recommendations ;;
  let t := if (1 <=? n)%Z then award 0.25%float t
           else suggest (lit "Provide actionable recommendations") t in
  n <- py_len trade_offs ;;
  let t := if (1 <=? n)%Z then award 0.2%float t
           else suggest (lit "Analyze trade-offs between approaches") t in
  let t := if has_confidence then award 0.2%float t
           else suggest (lit "Assign confidence level to recommendations") t in
  let score := clamp t.(points) in
  let passed := float_ge score QUALITY_GATE_THRESHOLD in
  nf <- py_len findings ;;
  nr <- py_len recommendations ;;
  Ret {| gate_name := "synthesis_quality";
         passed := passed;
         score := PFloat score;
         threshold := QUALITY_GATE_THRESHOLD;
         feedback := [Lit "Synthesis quality: "; Fmt (PInt nf); Lit " findings, ";
                      Fmt (PInt nr); Lit " recommendations";
                      Lit (if passed then " - Ready for handoff" else " - Needs refinement")];
         suggestions := if passed then [] else t.(advice);
         blocking := negb passed && (score <? 0.6)%float |}.

(** *** Implementer agent gates *)

Definition validate_requirements_clarity (ctx : GateContext) : result QualityGateResult :=
  let data := ctx.(data) in
  let t := start in
  task <- py_get data "task" (PStr "") ;;
  acceptance_criteria <- py_get data "acceptance_criteria" (PList []) ;;
  scope <- py_get data "scope" (PDict ∅) ;;
  c <- longer_than task 10 ;;
  let t := if c then award 0.3%float t
           else suggest (lit "Provide clear task description") t in
  n <- py_len acceptance_criteria ;;
  let t := if (1 <=? n)%Z then award 0.2%float t else t in
  n <- py_len acceptance_criteria ;;
  let t := if (3 <=? n)%Z then award 0.15%float t
           else suggest (lit "Define explicit acceptance criteria") t in
  files <- py_get scope "files" PNone ;;
  c <- (if truthy files then Ret true
       else modules <- py_get scope "modules" PNone ;; Ret (truthy modules)) ;;
  let t := if c then award 0.2%float t
           else suggest (lit "Identify files/modules in scope") t in
  edge_cases <- py_get data "edge_cases" PNone ;;
  let t := if truthy edge_cases then award 0.15%float t else t in
  let score := clamp t.(points) in
  let passed := float_ge score QUALITY_GATE_THRESHOLD in
  n <- py_len acceptance_criteria ;;
  Ret {| gate_name := "requirements_clarity";
         passed := passed;
         score := PFloat score;
         threshold := QUALITY_GATE_THRESHOLD;
         feedback := [Lit "Requirements clarity: "; Fmt (PInt n); Lit " criteria defined";
                      Lit (if passed then " - Ready to implement"
                           else " - Needs clarification")];
         suggestions := if passed then [] else t.(advice);
         blocking := negb passed && (score <? 0.6)%float |}.

Definition validate_code_quality (ctx : GateContext) : result QualityGateResult :=
  let data := ctx.(data) in
  let t := start in
  checks <- py_get data "quality_checks" (PDict ∅) ;;
  c <- py_get checks "typescript_types" (PBool false) ;;
  let t := if truthy c then award 0.25%float t
           else suggest (lit "Add comprehensive TypeScript types") t in
  c <- py_get checks "error_handling" (PBool false) ;;
  let t := if truthy c then award 0.25%float t
           else suggest (lit "Add error handling for edge cases") t in
  c <- py_get checks "no_debug_code" (PBool true) ;;
  let t := if truthy c then award 0.15%float t
           else suggest (lit "Remove console.log and debug statements") t in
  c <- py_get checks "follows_patterns" (PBool false) ;;
  let t := if truthy c then award 0.2%float t
           else suggest (lit "Ensure code follows existing project patterns") t in
  c <- py_get checks "comments_explain_why" (PBool false) ;;
  let t := if truthy c then award 0.15%float t else t in
  let score := clamp t.(points) in
  let passed := float_ge score QUALITY_GATE_THRESHOLD in
  Ret {| gate_name := "code_quality";
         passed := passed;
         score := PFloat score;
         threshold := QUALITY_GATE_THRESHOLD;
         feedback := [Lit "Code quality score: "; Fmt2f (NFloat score);
                      Lit (if passed then " - Quality standards met"
                           else " - Needs improvement")];
         suggestions := if passed then [] else t.(advice);
         blocking := negb passed && (score <? 0.6)%float |}.

Definition validate_test_coverage (ctx : GateContext) : result QualityGateResult :=
  let data := ctx.(data) in
  let t := start in
  tests_added <- py_get data "tests_added" (PInt 0) ;;
  coverage <- py_get data "coverage_percent" (PInt 0) ;;
  test_types <- py_get data "test_types" (PDict ∅) ;;
  c <- py_ge tests_added (NInt 1) ;;
  let t := if c then award 0.25%float t else t in
  c <- py_ge tests_added (NInt 3) ;;
  let t := if c then award 0.15%float t
           else suggest (lit "Add at least 3 tests for new functionality") t in
  high <- py_ge coverage (NInt 80) ;;
  t <- (if high then Ret (award 0.25%float t)
       else
         medium <- py_ge coverage (NInt 60) ;;
         Ret (if medium then suggest (lit "Increase coverage to 80%+") (award 0.15%float t)
              else suggest [Lit "Test coverage ("; Fmt coverage;
                            Lit "%) below 60% threshold"] t)) ;;
  c <- py_get test_types "happy_path" PNone ;;
  let t := if truthy c then award 0.15%float t
           else suggest (lit "Add happy path tests") t in
  c <- py_get test_types "edge_cases" PNone ;;
  let t := if truthy c then award 0.1%float t else t in
  c <- py_get test_types "error_handling" PNone ;;
  let t := if truthy c then award 0.1%float t else t in
  let score := clamp t.(points) in
  let passed := float_ge score QUALITY_GATE_THRESHOLD in
  Ret {| gate_name := "test_coverage";
         passed := passed;
         score := PFloat score;
         threshold := QUALITY_GATE_THRESHOLD;
         feedback := [Lit "Test coverage: "; Fmt tests_added; Lit " tests, ";
                      Fmt coverage; Lit "% coverage";
                      Lit (if passed then " - Well tested" else " - Needs more tests")];
         suggestions := if passed then [] else t.(advice);
         blocking := false |}.

Definition validate_no_regressions (ctx : GateContext) : result QualityGateResult :=
  let data := ctx.(data) in
  tests_run <- py_get data "tests_run" (PInt 0) ;;
  tests_passed <- py_get data "tests_passed" (PInt 0) ;;
  tests_failed <- py_get data "tests_failed" (PInt 0) ;;
  new_failures <- py_get data "new_failures" (PList []) ;;
  if py_eq tests_run (NInt 0) then
    Ret {| gate_name := "no_regressions";
           passed := false;
           score := PFloat 0%float;
           threshold := 1%float;
           feedback := lit "No tests run - cannot verify regressions";
           suggestions := [lit "Run test suite before completion"];
           blocking := true |}
  else
    positive <- py_gt tests_run (NInt 0) ;;
    pass_rate <- (if positive then q <- py_truediv tests_passed tests_run ;; Ret (PFloat q)
                 else Ret (PInt 0)) ;;
    failed <- py_gt tests_failed (NInt 0) ;;
    if failed then
      shown <- py_slice_to new_failures 3 ;;
      Ret {| gate_name := "no_regressions";
             passed := false;
             score := pass_rate;
             threshold := 1%float;
             feedback := [Lit "Regression detected: "; Fmt tests_failed;
                          Lit " test(s) failed"];
             suggestions := (fun f => [Lit "Fix failing test: "; Fmt f]) <$> shown;
             blocking := true |}
    else
      Ret {| gate_name := "no_regressions";
             passed := true;
             score := PFloat 1%float;
             threshold := 1%float;
             feedback := [Lit "All "; Fmt tests_run; Lit " tests pass - no regressions"];
             suggestions := [];
             blocking := false |}.

(** *** Reviewer agent gates *)

Definition dimension_weights : list (string * float) :=
  [("correctness", 0.25%float); ("security", 0.25%float); ("performance", 0.20%float);
   ("maintainability", 0.15%float); ("test_coverage", 0.15%float)].

(** [sum(1 for d in dimensions.values() if d)] *)
Definition count_truthy (dimensions : pyval) : result Z :=
  match dimensions with
  | PDict d => Ret (Z.of_nat (length (filter (fun v => truthy v = true) (map_to_list d).*2)))
  | _ => Raise AttributeError
  end.

Definition validate_review_completeness (ctx : GateContext) : result QualityGateResult :=
  let data := ctx.(data) in
  let t := start in
  dimensions <- py_get data "dimensions_reviewed" (PDict ∅) ;;
  t <- for_each
         (fun t '(dim, weight) =>
            c <- py_get dimensions dim (PBool false) ;;
            Ret (if truthy c then award weight t
                 else suggest [Lit "Review "; Fmt (PStr dim); Lit " dimension"] t))
         dimension_weights t ;;
  let score := clamp t.(points) in
  let passed := float_ge score QUALITY_GATE_THRESHOLD in
  reviewed_count <- count_truthy dimensions ;;
  let total_count := Z.of_nat (length dimension_weights) in
  Ret {| gate_name := "review_completeness";
         passed := passed;
         score := PFloat score;
         threshold := QUALITY_GATE_THRESHOLD;
         feedback := [Lit "Review completeness: "; Fmt (PInt reviewed_count); Lit "/";
                      Fmt (PInt total_count); Lit " dimensions";
                      Lit (if passed then " - Comprehensive review"
                           else " - Incomplete review")];
         suggestions := if passed then [] else t.(advice);
         blocking := false |}.

Definition security_items : list (string * float) :=
  [("input_validation", 0.25%float); ("output_encoding", 0.2%float);
   ("auth_checks", 0.25%float); ("no_data_exposure", 0.15%float);
   ("injection_prevention", 0.15%float)].

Definition validate_security_check (ctx : GateContext) : result QualityGateResult :=
  let data := ctx.(data) in
  let t := start in
  let security_threshold := 0.9%float in
  checks <- py_get data "security_checks" (PDict ∅) ;;
  t <- for_each
         (fun t '(item, weight) =>
            c <- py_get checks item (PBool false) ;;
            Ret (if truthy c then award weight t
                 else suggest [Lit "Verify "; Fmt (PStr (replace_char "_" " " item))] t))
         security_items t ;;
  let score := clamp t.(points) in
  let passed := float_ge score security_threshold in
  Ret {| gate_name := "security_check";
         passed := passed;
         score := PFloat score;
         threshold := security_threshold;
         feedback := [Lit "Security score: "; Fmt2f (NFloat score);
                      Lit (if passed then " - Security standards met"
                           else " - Security concerns found")];
         suggestions := if passed then [] else t.(advice);
         blocking := negb passed |}.

(** *** Consensus agent gates *)

Definition validate_decision_clarity (ctx : GateContext) : result QualityGateResult :=
  let data := ctx.(data) in
  let t := start in
  question <- py_get data "question" (PStr "") ;;
  options <- py_get data "options" (PList []) ;;
  constraints <- py_get data "constraints" (PList []) ;;
  success_criteria <- py_get data "success_criteria" (PList []) ;;
  c <- longer_than question 20 ;;
  let t := if c then award 0.3%float t
           else suggest (lit "Provide a clear, specific decision question") t in
  n <- py_len options ;;
  let t := if (2 <=? n)%Z then award 0.25%float t
           else suggest (lit "Identify at least 2 options to evaluate") t in
  n <- py_len constraints ;;
  let t := if (1 <=? n)%Z then award 0.2%float t
           else suggest (lit "Document constraints affecting the decision") t in
  n <- py_len success_criteria ;;
  let t := if (1 <=? n)%Z then award 0.25%float t
           else suggest (lit "Define what success looks like") t in
  let score := clamp t.(points) in
  let passed := float_ge score QUALITY_GATE_THRESHOLD in
  no <- py_len options ;;
  nc <- py_len constraints ;;
  Ret {| gate_name := "decision_clarity";
         passed := passed;
         score := PFloat score;
         threshold := QUALITY_GATE_THRESHOLD;
         feedback := [Lit "Decision framing: "; Fmt (PInt no); Lit " options, ";
                      Fmt (PInt nc); Lit " constraints";
                      Lit (if passed then " - Well-framed" else " - Needs refinement")];
         suggestions := if passed then [] else t.(advice);
         blocking := negb passed && (score <? 0.6)%float |}.

Definition required_perspectives : list string :=
  ["developer_experience"; "architecture"; "user_impact";
   "resource_cost"; "security"; "time_horizon"].

Definition validate_perspective_coverage (ctx : GateContext) : result QualityGateResult :=
  let data := ctx.(data) in
  let t := start in
  perspectives <- py_get data "perspectives" (PDict ∅) ;;
  let covered := 0%Z in
  ct <- for_each
          (fun (ct : Z * tally) perspective =>
             c <- py_get perspectives perspective PNone ;;
             Ret (if truthy c then ((ct.1 + 1)%Z, award (1 / 6 * 0.9)%float ct.2)
                  else (ct.1,
                        suggest [Lit "Analyze ";
                                 Fmt (PStr (replace_char "_" " " perspective));
                                 Lit " perspective"] ct.2)))
          required_perspectives (covered, t) ;;
  let covered := ct.1 in
  let t := ct.2 in
  weights_assigned <- py_get data "weights_assigned" (PBool false) ;;
  let t := if truthy weights_assigned then award 0.1%float t else t in
  let score := clamp t.(points) in
  let passed := float_ge score QUALITY_GATE_THRESHOLD in
  Ret {| gate_name := "perspective_coverage";
         passed := passed;
         score := PFloat score;
         threshold := QUALITY_GATE_THRESHOLD;
         feedback := [Lit "Perspective coverage: "; Fmt (PInt covered);
                      Lit "/6 perspectives analyzed";
                      Lit (if passed then " - Comprehensive analysis"
                           else " - Missing perspectives")];
         suggestions := if passed then [] else t.(advice);
         blocking := false |}.

(** [score = min(1.0, score + bonus)] *)
Definition capped_bonus (score : pyval) (bonus : float) : result pyval :=
  x <- py_add score bonus ;; Ret (PFloat (py_min 1%float x)).

Definition validate_decision_confidence (ctx : GateContext) : result QualityGateResult :=
  let data := ctx.(data) in
  recommendation <- py_get data "recommendation" (PDict ∅) ;;
  confidence <- py_get recommendation "confidence" (PInt 0) ;;
  rationale <- py_get recommendation "rationale" (PStr "") ;;
  dissenting_view <- py_get data "dissenting_view" (PStr "") ;;
  let suggestions : list text := [] in
  let score := confidence in
  c <- longer_than rationale 50 ;;
  score <- (if c then capped_bonus score 0.1%float else Ret score) ;;
  let suggestions :=
    if c then suggestions
    else suggestions ++ [lit "Provide detailed rationale for recommendation"] in
  score <- (if truthy dissenting_view then capped_bonus score 0.05%float else Ret score) ;;
  let suggestions :=
    if truthy dissenting_view then suggestions
    else suggestions ++ [lit "Acknowledge strongest counter-argument"] in
  passed <- py_ge score (NFloat QUALITY_GATE_THRESHOLD) ;;
  high <- py_ge score (NFloat 0.8%float) ;;
  confidence_level <- (if high then Ret "HIGH"
                       else medium <- py_ge score (NFloat 0.6%float) ;;
                            Ret (if medium then "MEDIUM" else "LOW")) ;;
  shown <- fmt_2f score ;;
  Ret {| gate_name := "decision_confidence";
         passed := passed;
         score := score;
         threshold := QUALITY_GATE_THRESHOLD;
         feedback := [Lit "Decision confidence: "; Fmt (PStr confidence_level); Lit " (";
                      shown; Lit ")";
                      Lit (if passed then " - Confident recommendation"
                           else " - Consider prototyping")];
         suggestions := if passed then [] else suggestions;
         blocking := false |}.

(** *** Memory keeper agent gates *)

Definition validate_memory_relevance (ctx : GateContext) : result QualityGateResult :=
  let data := ctx.(data) in
  matches <- py_get data "matches" (PList []) ;;
  query <- py_get data "query" (PStr "") ;;
  top_relevance <- py_get data "top_relevance" (PInt 0) ;;
  let relevance_threshold := 0.7%float in
  let suggestions : list text := [] in
  if negb (truthy matches) then
    Ret {| gate_name := "memory_relevance";
           passed := false;
           score := PFloat 0%float;
           threshold := relevance_threshold;
           feedback := lit "No matching memories found";
           suggestions := [lit "Broaden search terms"; lit "Check alternative categories"];
           blocking := false |}
  else
    let score := top_relevance in
    items <- py_iter matches ;;
    high_relevance_count <-
      for_each
        (fun (k : Z) m =>
           r <- py_get m "relevance" (PInt 0) ;;
           c <- py_ge r (NFloat 0.7%float) ;;
           Ret (if c then (k + 1)%Z else k))
        items 0%Z ;;
    score <- (if (2 <=? high_relevance_count)%Z then capped_bonus score 0.1%float
              else Ret score) ;;
    passed <- py_ge score (NFloat relevance_threshold) ;;
    let suggestions :=
      if passed then suggestions
      else suggestions ++ [lit "Consider alternative search strategies"] in
    n <- py_len matches ;;
    shown <- fmt_2f top_relevance ;;
    Ret {| gate_name := "memory_relevance";
           passed := passed;
           score := score;
           threshold := relevance_threshold;
           feedback := [Lit "Memory relevance: "; Fmt (PInt n); Lit " matches, top relevance ";
                        shown;
                        Lit (if passed then " - Good matches" else " - Low relevance")];
           suggestions := if passed then [] else suggestions;
           blocking := false |}.

(** *** Gate registry and validation *)

Definition registry : list (string * (GateContext -> result QualityGateResult)) :=
  [("input_clarity", validate_input_clarity);
   ("source_coverage", validate_source_coverage);
   ("synthesis_quality", validate_synthesis_quality);
   ("requirements_clarity", validate_requirements_clarity);
   ("code_quality", validate_code_quality);
   ("test_coverage", validate_test_coverage);
   ("no_regressions", validate_no_regressions);
   ("review_completeness", validate_review_completeness);
   ("security_check", validate_security_check);
   ("decision_clarity", validate_decision_clarity);
   ("perspective_coverage", validate_perspective_coverage);
   ("decision_confidence", validate_decision_confidence);
   ("memory_relevance", validate_memory_relevance)].

Definition GATE_VALIDATORS : gmap string (GateContext -> result QualityGateResult) :=
  list_to_map registry.

(** Validate a quality gate by name. [context] is the context dictionary. *)
Definition validate_gate (gate_name : string) (context : gmap string pyval)
  : result QualityGateResult :=
  match GATE_VALIDATORS !! gate_name with
  | None =>
      Ret {| gate_name := gate_name;
             passed := true;
             score := PFloat 1%float;
             threshold := QUALITY_GATE_THRESHOLD;
             feedback := [Lit "No validator defined for gate '"; Fmt (PStr gate_name);
                          Lit "' - auto-pass"];
             suggestions := [];
             blocking := false |}
  | Some validator =>
      let ctx := {| session_id := default (PStr "unknown") (context !! "session_id");
                    agent_type := default (PStr "unknown") (context !! "agent_type");
                    phase := default (PStr "unknown") (context !! "phase");
                    data := default (PDict ∅) (context !! "data");
                    history := default PNone (context !! "history") |} in
      validator ctx
  end.

(** Determine action based on confidence level (strict mode: 0.8). *)
Definition get_confidence_action (confidence : float) : string :=
  if float_ge confidence 0.8%float then "proceed"
  else if float_ge confidence 0.6%float then "clarify"
  else "block".

(** *** CLI interface *)

(** The command line, less its output: [stdin] is the parsed input, [None]
    when there is none or it is not JSON. Returns the verdict printed and the
    exit code. The emission to the server, when asked for, changes neither:
    its failures are silent. *)
Definition main (gate agent : string) (stdin : option pyval)
  : result (QualityGateResult * Z) :=
  match default (PDict ∅) stdin with
  | PDict context =>
      let context := <[ "agent_type" := PStr agent ]> context in
      result <- validate_gate gate context ;;
      Ret (result, if result.(passed) then 0%Z else 1%Z)
  | _ => Raise TypeError
  end.

End QualityGates.

(** ** protocol_event.py *)

Module ProtocolEvent.
Import Py.

Definition QUALITY_GATE_THRESHOLD : float := 0.8%float.

(** The dictionary [build_gate_event] returns, one field per key. *)
Record gate_event : Type := {
  event_type : string;
  agent_type : string;
  protocol_version : string;
  gate_name : pyval;
  passed : pyval;
  score : pyval;
  threshold : pyval;
  feedback : pyval;
  context : pyval
}.

(** Build a quality gate event payload. The default of [payload.get("passed",
    ...)] is an argument, so [score >= QUALITY_GATE_THRESHOLD] is evaluated
    (and may raise) whether or not the payload has the key. *)
Definition build_gate_event (agent : string) (payload : gmap string pyval)
  : result gate_event :=
  let score := default (PFloat 0%float) (payload !! "score") in
  above <- py_ge score (NFloat QUALITY_GATE_THRESHOLD) ;;
  let passed := default (PBool above) (payload !! "passed") in
  Ret {| event_type := "gate";
         agent_type := agent;
         protocol_version := "2.0";
         gate_name := default (PStr "unknown") (payload !! "gate_name");
         passed := passed;
         score := score;
         threshold := default (PFloat QUALITY_GATE_THRESHOLD) (payload !! "threshold");
         feedback := default (PStr "") (payload !! "feedback");
         context := default (PDict ∅) (payload !! "context") |}.

(** *** The other builders and the command line *)

(** A value of an event dictionary. [json.dumps(v)] is kept as the value it
    serialises. *)
Inductive field : Type :=
| Plain (v : pyval)
| JsonDumps (v : pyval).

(** An event payload: a dictionary. *)
Definition event : Type := gmap string field.

(** [payload.get(key, dflt)] *)
Definition get (payload : gmap string pyval) (key : string) (dflt : pyval) : pyval :=
  default dflt (payload !! key).

(** Build a spawn event payload. *)
Definition build_spawn_event (agent : string) (payload : gmap string pyval) : event :=
  list_to_map
    [("event_type", Plain (PStr "spawn"));
     ("agent_type", Plain (PStr agent));
     ("protocol_version", Plain (PStr "2.0"));
     ("phase", Plain (PStr "initialization"));
     ("confidence", Plain (PFloat 1%float));
     ("context",
      Plain (PDict (list_to_map
                      [("task", get payload "task" (PStr ""));
                       ("scope", get payload "scope" (PDict ∅));
                       ("requirements", get payload "requirements" (PList []))])))].

(** Build a progress event payload. *)
Definition build_progress_event (agent : string) (payload : gmap string pyval) : event :=
  list_to_map
    [("event_type", Plain (PStr "progress"));
     ("agent_type", Plain (PStr agent));
     ("protocol_version", Plain (PStr "2.0"));
     ("phase", Plain (get payload "phase" (PStr "execution")));
     ("confidence", Plain (get payload "confidence" (PFloat 0.5%float)));
     ("context",
      Plain (PDict (list_to_map
                      [("completed_steps", get payload "completed_steps" (PList []));
                       ("remaining_steps", get payload "remaining_steps" (PList []));
                       ("current_activity", get payload "current_activity" (PStr ""))])))].

(** The dictionary of a gate event. *)
Definition gate_event_dict (e : gate_event) : event :=
  list_to_map
    [("event_type", Plain (PStr e.(event_type)));
     ("agent_type", Plain (PStr e.(agent_type)));
     ("protocol_version", Plain (PStr e.(protocol_version)));
     ("gate_name", Plain e.(gate_name));
     ("passed", Plain e.(passed));
     ("score", Plain e.(score));
     ("threshold", Plain e.(threshold));
     ("feedback", Plain e.(feedback));
     ("context", Plain e.(context))].

(** Build a completion event payload. *)
Definition build_complete_event (agent : string) (payload : gmap string pyval) : event :=
  list_to_map
    [("event_type", Plain (PStr "complete"));
     ("agent_type", Plain (PStr agent));
     ("protocol_version", Plain (PStr "2.0"));
     ("phase", Plain (PStr "complete"));
     ("confidence", Plain (get payload "confidence" (PFloat 0.8%float)));
     ("context",
      Plain (PDict (list_to_map
                      [("output_summary", get payload "output_summary" (PStr ""));
                       ("files_modified", get payload "files_modified" (PList []));
                       ("quality_metrics", get payload "quality_metrics" (PDict ∅));
                       ("duration_ms", get payload "duration_ms" (PInt 0))])))].

(** Build a handoff event payload. *)
Definition build_handoff_event (agent : string) (payload : gmap string pyval) : event :=
  list_to_map
    [("event_type", Plain (PStr "handoff"));
     ("agent_type", Plain (PStr agent));
     ("protocol_version", Plain (PStr "2.0"));
     ("from_agent", Plain (PStr agent));
     ("to_agent", Plain (get payload "to_agent" (PStr "unknown")));
     ("handoff_type", Plain (get payload "handoff_type" (PStr "task_delegation")));
     ("document", JsonDumps (get payload "document" (PDict ∅)));
     ("metadata",
      JsonDumps (PDict (list_to_map
                          [("confidence", get payload "confidence" (PFloat 0.8%float));
                           ("priority", get payload "priority" (PStr "medium"));
                           ("reason", get payload "reason" (PStr ""))])))].

(** Build an error event payload. *)
Definition build_error_event (agent : string) (payload : gmap string pyval) : event :=
  list_to_map
    [("event_type", Plain (PStr "error"));
     ("agent_type", Plain (PStr agent));
     ("protocol_version", Plain (PStr "2.0"));
     ("phase", Plain (get payload "phase" (PStr "unknown")));
     ("confidence", Plain (PFloat 0%float));
     ("context",
      Plain (PDict (list_to_map
                      [("error_code", get payload "error_code" (PStr "UNKNOWN"));
                       ("error_message",
                        get payload "error_message" (PStr "An error occurred"));
                       ("recoverable", get payload "recoverable" (PBool false));
                       ("suggestions", get payload "suggestions" (PList []))])))].

Definition builders : list (string * (string -> gmap string pyval -> result event)) :=
  [("spawn", fun agent payload => Ret (build_spawn_event agent payload));
   ("progress", fun agent payload => Ret (build_progress_event agent payload));
   ("gate", fun agent payload =>
              e <- build_gate_event agent payload ;; Ret (gate_event_dict e));
   ("complete", fun agent payload => Ret (build_complete_event agent payload));
   ("handoff", fun agent payload => Ret (build_handoff_event agent payload));
   ("error", fun agent payload => Ret (build_error_event agent payload))].

Definition EVENT_BUILDERS : gmap string (string -> gmap string pyval -> result event) :=
  list_to_map builders.

Definition hook_event_type_map : gmap string string :=
  list_to_map
    [("spawn", "ProtocolEvent"); ("progress", "ProtocolEvent"); ("gate", "QualityGate");
     ("complete", "ProtocolEvent"); ("handoff", "AgentHandoff");
     ("error", "ProtocolEvent")].

(** What [main] hands to [send_event], less the fields read from the
    environment and the clock ([source_app], [session_id], [timestamp]). *)
Record envelope : Type := {
  hook_event_type : string;
  payload : event
}.

(** The emitter's command line: [stdin] is the parsed input, [None] when
    there is none or it is not JSON. [Ret None] is the exit with status 1 for
    an unknown event type; [Ret (Some e)] is the exit with status 0 after [e]
    was handed to [send_event], whose failures are silent. *)
Definition main (agent event_type : string) (stdin : option pyval)
  : result (option envelope) :=
  let payload := default (PDict ∅) stdin in
  match EVENT_BUILDERS !! event_type with
  | None => Ret None
  | Some builder =>
      event_payload <- (match payload with
                        | PDict p => builder agent p
                        | _ => Raise AttributeError
                        end) ;;
      Ret (Some {| hook_event_type :=
                     default "ProtocolEvent" (hook_event_type_map !! event_type);
                   payload := event_payload |})
  end.

End ProtocolEvent.

(** ** What the claims say, word for word *)

Module Claims.
Import Py QualityGates.

(** A score lies in [0,1]: it is a number, at least 0 and at most 1. *)
Definition in_unit_interval (v : pyval) : bool :=
  match as_number v with
  | Some x => num_ge x (NInt 0) && num_le x (NInt 1)
  | None => false
  end.

(** The three invariants every verdict of a gate named [name] is meant to
    satisfy. *)
Definition well_formed (name : string) (r : QualityGateResult) : Prop :=
  r.(gate_name) = name /\
  (r.(blocking) = true -> r.(passed) = false) /\
  (r.(passed) = true -> r.(suggestions) = []).

(** [+w if the indicator holds]. *)
Definition bonus (holds : bool) (w : float) : float := if holds then w else 0%float.

(** input-clarity, as the specification words it: the clamped sum of the
    five bonuses. *)
Definition input_clarity_score (word_count : Z) (asks technical : bool) : float :=
  clamp (bonus (5 <=? word_count)%Z 0.3 + bonus (10 <=? word_count)%Z 0.2
         + bonus (word_count <=? 100)%Z 0.1 + bonus asks 0.2 + bonus technical 0.2)%float.

(** security-check, as the specification words it: the weighted sum over the
    five fixed indicators. *)
Definition security_weighted_sum (met : string -> bool) : float :=
  (bonus (met "input_validation") 0.25 + bonus (met "output_encoding") 0.20
   + bonus (met "auth_checks") 0.25 + bonus (met "no_data_exposure") 0.15
   + bonus (met "injection_prevention") 0.15)%float.

Definition security_indicators : list string :=
  ["input_validation"; "output_encoding"; "auth_checks"; "no_data_exposure";
   "injection_prevention"].

(** An indicator is met when the context's check of that name is truthy. *)
Definition indicator_met (checks : gmap string pyval) (item : string) : bool :=
  truthy (default (PBool false) (checks !! item)).

(** The word count of a query: [len(query.split())]. *)
Definition word_count (q : string) : Z := Z.of_nat (length (split q)).

(** The query contains one of the tokens, whatever its capitals. *)
Definition mentions (tokens : list string) (q : string) : bool :=
  existsb (fun t => contains t (lower q)) tokens.

(** Two values are the same number. *)
Definition same_number (v w : pyval) : bool :=
  match as_number v, as_number w with
  | Some x, Some y => num_eq x y
  | _, _ => false
  end.

(** no-regressions, as the specification words its second branch: when
    [tests_run] is not 0 and [tests_failed > 0], the score is
    [tests_passed / tests_run]. *)
Definition no_regressions_score_as_specified : Prop :=
  forall (ctx : GateContext) (d : gmap string pyval) (run passed failed : Z)
         (r : QualityGateResult),
    data ctx = PDict d ->
    d !! "tests_run" = Some (PInt run) ->
    d !! "tests_passed" = Some (PInt passed) ->
    d !! "tests_failed" = Some (PInt failed) ->
    run <> 0%Z -> (0 < failed)%Z ->
    validate_no_regressions ctx = Ret r ->
    exists q, py_truediv (PInt passed) (PInt run) = Ret q /\
              same_number (score r) (PFloat q) = true.

(** The gate event, as the specification words it: without a [passed] field,
    [passed] is [score >= threshold], the threshold being the payload's own
    when it has one and 0.8 otherwise. *)
Definition gate_passed_as_specified : Prop :=
  forall (agent : string) (payload : gmap string pyval) (s t : number)
         (ev : ProtocolEvent.gate_event),
    payload !! "passed" = None ->
    as_number (default (PFloat 0%float) (payload !! "score")) = Some s ->
    as_number (default (PFloat 0.8%float) (payload !! "threshold")) = Some t ->
    ProtocolEvent.build_gate_event agent payload = Ret ev ->
    ProtocolEvent.passed ev = PBool (num_ge s t).

End Claims.

(** ** Classes of gates and of verdicts *)

Module Verdicts.
Import Py QualityGates.

(** The gates whose validators do not end with the clamp. *)
Definition unclamped_gates : list string :=
  ["no_regressions"; "decision_confidence"; "memory_relevance"].

(** The gates whose validators write [blocking=False]. *)
Definition advisory_gates : list string :=
  ["source_coverage"; "test_coverage"; "review_completeness";
   "perspective_coverage"; "decision_confidence"; "memory_relevance"].

(** The gates whose validators write [blocking=not passed and score < 0.6]. *)
Definition graded_gates : list string :=
  ["input_clarity"; "synthesis_quality"; "requirements_clarity";
   "code_quality"; "decision_clarity"].

(** The threshold each validator writes in its verdicts. *)
Definition gate_threshold (name : string) : float :=
  if bool_decide (name ∈ ["source_coverage"; "memory_relevance"]) then 0.7%float
  else if bool_decide (name = "security_check") then 0.9%float
  else if bool_decide (name = "no_regressions") then 1%float
  else 0.8%float.

(** A verdict of threshold [t] whose score is a float of [0,1] and which
    passed exactly when the score reaches [t]. *)
Definition clamped_verdict (t : float) (r : QualityGateResult) : Prop :=
  threshold r = t /\
  exists s, score r = PFloat s /\
            (0 <=? s)%float = true /\ (s <=? 1)%float = true /\
            passed r = (t <=? s)%float.

(** A verdict that passed exactly when [score >= threshold] holds in Python. *)
Definition passed_at_threshold (r : QualityGateResult) : Prop :=
  py_ge (score r) (NFloat (threshold r)) = Ret (passed r).

(** [checks.get(item, dflt)] is truthy. *)
Definition met (checks : gmap string pyval) (dflt : bool) (item : string) : bool :=
  truthy (default (PBool dflt) (checks !! item)).

(** At most one of three indicators is unmet. *)
Definition at_most_one_unmet (a b c : bool) : bool := a && b || a && c || b && c.

(** [perspectives.get(p)] is truthy. *)
Definition perspective_met (ps : gmap string pyval) (p : string) : bool :=
  truthy (default PNone (ps !! p)).

(** [n] times [score += w]. *)
Definition awarded (n : nat) (w : float) (s : float) : float :=
  Nat.iter n (fun x => (x + w)%float) s.

(** A match is a dictionary whose relevance (0 when absent) is a number. *)
Definition rated (m : pyval) : Prop :=
  exists g x, m = PDict g /\ as_number (default (PInt 0) (g !! "relevance")) = Some x.

(** [m.get("relevance", 0) >= 0.7] *)
Definition highly_relevant (m : pyval) : bool :=
  match m with
  | PDict g =>
      match as_number (default (PInt 0) (g !! "relevance")) with
      | Some x => num_ge x (NFloat 0.7%float)
      | None => false
      end
  | _ => false
  end.

End Verdicts.

(** ** Sample inputs *)

Module Samples.
Import Py QualityGates.

(** [{"data": d}] *)
Definition with_data (d : gmap string pyval) : gmap string pyval :=
  {[ "data" := PDict d ]}.

(** The context [validate_gate] builds from [{"data": d}]. *)
Definition context_of (d : gmap string pyval) : GateContext :=
  {| session_id := PStr "unknown"; agent_type := PStr "unknown";
     phase := PStr "unknown"; data := PDict d; history := PNone |}.

(** One security check out of five is met. *)
Definition one_check_met : gmap string pyval :=
  with_data {[ "security_checks" := PDict {[ "input_validation" := PBool true ]} ]}.

(** Five sources, two files read and four patterns. *)
Definition well_sourced : gmap string pyval :=
  with_data (<[ "sources_examined" := PInt 5 ]>
               (<[ "files_read" := PInt 2 ]> {[ "patterns_found" := PInt 4 ]})).

(** One memory match of relevance 0.9. *)
Definition one_good_match : gmap string pyval :=
  with_data (<[ "matches" := PList [PDict {[ "relevance" := PFloat 0.9 ]}] ]>
               {[ "top_relevance" := PFloat 0.9 ]}).

(** Every security check but the injection prevention is met. *)
Definition four_checks_met : gmap string pyval :=
  list_to_map [("input_validation", PBool true); ("output_encoding", PBool true);
               ("auth_checks", PBool true); ("no_data_exposure", PBool true)].

Definition security_reviewed : gmap string pyval :=
  {[ "security_checks" := PDict four_checks_met ]}.

(** Twelve words, with a question marker and a technical term. *)
Definition twelve_words : string :=
  "how can we implement this new thing in the code base now".

Definition clear_query : gmap string pyval := {[ "query" := PStr twelve_words ]}.

(** A run that reports a negative number of tests: five passed, one failed. *)
Definition negative_run : gmap string pyval :=
  <[ "tests_run" := PInt (-1) ]>
    (<[ "tests_passed" := PInt 5 ]> {[ "tests_failed" := PInt 1 ]}).

(** Ten tests, nine passed, one failed, four failures listed. *)
Definition one_failure : gmap string pyval :=
  <[ "tests_run" := PInt 10 ]>
    (<[ "tests_passed" := PInt 9 ]>
       (<[ "tests_failed" := PInt 1 ]>
          {[ "new_failures" := PList [PStr "t1"; PStr "t2"; PStr "t3"; PStr "t4"] ]})).

(** A score of 0.75 for a gate whose threshold is 0.7. *)
Definition lenient_gate : gmap string pyval :=
  <[ "score" := PFloat 0.75 ]> {[ "threshold" := PFloat 0.7 ]}.

(** A score of 0.85 and nothing else. *)
Definition bare_score : gmap string pyval := {[ "score" := PFloat 0.85 ]}.

(** A recommendation whose confidence is 5. *)
Definition overconfident : gmap string pyval :=
  with_data {[ "recommendation" := PDict {[ "confidence" := PInt 5 ]} ]}.

(** A recommendation whose confidence is -1.5. *)
Definition negative_confidence : gmap string pyval :=
  with_data {[ "recommendation" := PDict {[ "confidence" := PFloat (-1.5) ]} ]}.

(** One memory match and a top relevance of 5.0. *)
Definition overrated_match : gmap string pyval :=
  with_data (<[ "matches" := PList [PDict ∅] ]> {[ "top_relevance" := PFloat 5 ]}).

(** A short rationale and a dissenting view, for a confidence of 5. *)
Definition sure : gmap string pyval :=
  <[ "confidence" := PInt 5 ]> {[ "rationale" := PStr "short" ]}.

Definition argued : gmap string pyval :=
  <[ "recommendation" := PDict sure ]>
    {[ "dissenting_view" := PStr "it may not scale" ]}.

(** Three matches, two of them of relevance 0.7 or more. *)
Definition three_matches : list pyval :=
  [PDict {[ "relevance" := PFloat 0.9 ]}; PDict ∅; PDict {[ "relevance" := PFloat 0.7 ]}].

Definition recalled : gmap string pyval :=
  <[ "matches" := PList three_matches ]> {[ "top_relevance" := PFloat 0.65 ]}.

(** A gate report with an explicit verdict. *)
Definition reported : gmap string pyval :=
  <[ "gate_name" := PStr "input_clarity" ]>
    (<[ "passed" := PBool true ]> {[ "score" := PFloat 0.3 ]}).

(** A framed decision without constraints. *)
Definition framed : gmap string pyval :=
  <[ "question" := PStr "Should the cache move to Redis?" ]>
    (<[ "options" := PList [PStr "keep"; PStr "move"] ]>
       {[ "success_criteria" := PList [PStr "p99 under 50 ms"] ]}).

(** One test, 85% coverage, the three kinds of test. *)
Definition lightly_tested : gmap string pyval :=
  <[ "tests_added" := PInt 1 ]>
    (<[ "coverage_percent" := PInt 85 ]>
       {[ "test_types" :=
            PDict (<[ "happy_path" := PBool true ]>
                     (<[ "edge_cases" := PBool true ]>
                        {[ "error_handling" := PBool true ]})) ]}).

(** Every review dimension but the performance. *)
Definition four_dimensions : gmap string pyval :=
  list_to_map [("correctness", PBool true); ("security", PBool true);
               ("maintainability", PBool true); ("test_coverage", PBool true)].

Definition reviewed : gmap string pyval :=
  {[ "dimensions_reviewed" := PDict four_dimensions ]}.

(** Types and error handling, nothing said of the rest. *)
Definition two_checks : gmap string pyval :=
  <[ "typescript_types" := PBool true ]> {[ "error_handling" := PBool true ]}.

Definition typed_and_handled : gmap string pyval :=
  {[ "quality_checks" := PDict two_checks ]}.

(** Five perspectives out of six, with weights. *)
Definition five_covered : gmap string pyval :=
  list_to_map [("developer_experience", PStr "smooth"); ("architecture", PStr "layered");
               ("user_impact", PStr "none"); ("resource_cost", PStr "low");
               ("security", PStr "unchanged")].

Definition five_perspectives : gmap string pyval :=
  <[ "weights_assigned" := PBool true ]> {[ "perspectives" := PDict five_covered ]}.

(** Five sources, three files read, no pattern. *)
Definition five_sources : gmap string pyval :=
  <[ "sources_examined" := PInt 5 ]> {[ "files_read" := PInt 3 ]}.

(** A context whose data is a list. *)
Definition listed_data : gmap string pyval := {[ "data" := PList [PInt 1] ]}.

End Samples.

(** ** Properties *)

Import Py QualityGates Claims Verdicts Samples.

(** *** Reasoning about computations that return *)

Lemma bind_Ret_inv {A B : Type} (m : result A) (k : A -> result B) (b : B) :
  bind m k = Ret b -> exists a, m = Ret a /\ k a = Ret b.
Proof.
  destruct m as [a|e]; simpl; intros H; [eauto | discriminate].
Qed.

Lemma negb_andb_blocks (p x : bool) : negb p && x = true -> p = false.
Proof. destruct p; simpl; [discriminate | reflexivity]. Qed.

Lemma negb_blocks (p : bool) : negb p = true -> p = false.
Proof. destruct p; simpl; [discriminate | reflexivity]. Qed.

Lemma truthy_str (q : string) : q <> "" -> truthy (PStr q) = true.
Proof.
  intros Hq. simpl. destruct (String.eqb_spec q ""); [contradiction | reflexivity].
Qed.

Lemma passed_no_advice (p : bool) (s : list text) :
  p = true -> (if p then [] else s) = [].
Proof. intros ->; reflexivity. Qed.

(** Peel the binds and the early returns of a validator that returned. *)
Ltac returned H :=
  cbv beta zeta in H;
  repeat
    (lazymatch type of H with
     | bind _ _ = Ret _ =>
         let a := fresh "v" in
         let E := fresh "E" in
         apply bind_Ret_inv in H as (a & E & H); cbv beta zeta in H
     | (if ?c then _ else _) = Ret _ =>
         let E := fresh "E" in destruct c eqn:E
     end).

Ltac verdict_facts :=
  cbn [gate_name passed suggestions blocking];
  first [ reflexivity
        | discriminate
        | apply negb_andb_blocks
        | apply negb_blocks
        | apply passed_no_advice
        | intros _; reflexivity ].

Ltac well_formed_verdict H :=
  returned H; injection H as <-; repeat split; verdict_facts.

Lemma validate_input_clarity_well_formed ctx r :
  validate_input_clarity ctx = Ret r -> well_formed "input_clarity" r.
Proof. unfold validate_input_clarity; intros H; well_formed_verdict H. Qed.

Lemma validate_source_coverage_well_formed ctx r :
  validate_source_coverage ctx = Ret r -> well_formed "source_coverage" r.
Proof. unfold validate_source_coverage; intros H; well_formed_verdict H. Qed.

Lemma validate_synthesis_quality_well_formed ctx r :
  validate_synthesis_quality ctx = Ret r -> well_formed "synthesis_quality" r.
Proof. unfold validate_synthesis_quality; intros H; well_formed_verdict H. Qed.

Lemma validate_requirements_clarity_well_formed ctx r :
  validate_requirements_clarity ctx = Ret r -> well_formed "requirements_clarity" r.
Proof. unfold validate_requirements_clarity; intros H; well_formed_verdict H. Qed.

Lemma validate_code_quality_well_formed ctx r :
  validate_code_quality ctx = Ret r -> well_formed "code_quality" r.
Proof. unfold validate_code_quality; intros H; well_formed_verdict H. Qed.

Lemma validate_test_coverage_well_formed ctx r :
  validate_test_coverage ctx = Ret r -> well_formed "test_coverage" r.
Proof. unfold validate_test_coverage; intros H; well_formed_verdict H. Qed.

Lemma validate_no_regressions_well_formed ctx r :
  validate_no_regressions ctx = Ret r -> well_formed "no_regressions" r.
Proof. unfold validate_no_regressions; intros H; well_formed_verdict H. Qed.

Lemma validate_review_completeness_well_formed ctx r :
  validate_review_completeness ctx = Ret r -> well_formed "review_completeness" r.
Proof. unfold validate_review_completeness; intros H; well_formed_verdict H. Qed.

Lemma validate_security_check_well_formed ctx r :
  validate_security_check ctx = Ret r -> well_formed "security_check" r.
Proof. unfold validate_security_check; intros H; well_formed_verdict H. Qed.

Lemma validate_decision_clarity_well_formed ctx r :
  validate_decision_clarity ctx = Ret r -> well_formed "decision_clarity" r.
Proof. unfold validate_decision_clarity; intros H; well_formed_verdict H. Qed.

Lemma validate_perspective_coverage_well_formed ctx r :
  validate_perspective_coverage ctx = Ret r -> well_formed "perspective_coverage" r.
Proof. unfold validate_perspective_coverage; intros H; well_formed_verdict H. Qed.

Lemma validate_decision_confidence_well_formed ctx r :
  validate_decision_confidence ctx = Ret r -> well_formed "decision_confidence" r.
Proof. unfold validate_decision_confidence; intros H; well_formed_verdict H. Qed.

Lemma validate_memory_relevance_well_formed ctx r :
  validate_memory_relevance ctx = Ret r -> well_formed "memory_relevance" r.
Proof. unfold validate_memory_relevance; intros H; well_formed_verdict H. Qed.

(** *** The registry *)

Lemma registered_well_formed name validator :
  GATE_VALIDATORS !! name = Some validator ->
  forall ctx r, validator ctx = Ret r -> well_formed name r.
Proof.
  unfold GATE_VALIDATORS, registry.
  intros Hin%elem_of_list_to_map_2 ctx r.
  repeat (apply elem_of_cons in Hin as [Hin | Hin];
          [injection Hin as -> -> |]).
  - apply validate_input_clarity_well_formed.
  - apply validate_source_coverage_well_formed.
  - apply validate_synthesis_quality_well_formed.
  - apply validate_requirements_clarity_well_formed.
  - apply validate_code_quality_well_formed.
  - apply validate_test_coverage_well_formed.
  - apply validate_no_regressions_well_formed.
  - apply validate_review_completeness_well_formed.
  - apply validate_security_check_well_formed.
  - apply validate_decision_clarity_well_formed.
  - apply validate_perspective_coverage_well_formed.
  - apply validate_decision_confidence_well_formed.
  - apply validate_memory_relevance_well_formed.
  - apply elem_of_nil in Hin as [].
Qed.

Lemma validate_gate_well_formed name context r :
  validate_gate name context = Ret r -> well_formed name r.
Proof.
  unfold validate_gate.
  destruct (GATE_VALIDATORS !! name) as [validator|] eqn:Hreg.
  - apply (registered_well_formed _ _ Hreg).
  - intros H; injection H as <-; repeat split; verdict_facts.
Qed.

(** The registry has exactly the 13 gate names. *)
Lemma registered_names name :
  is_Some (GATE_VALIDATORS !! name) <-> name ∈ registry.*1.
Proof.
  unfold GATE_VALIDATORS.
  rewrite <- elem_of_dom, dom_list_to_map_L, elem_of_list_to_set. reflexivity.
Qed.

(** With the context the command line builds when its input is unreadable
    (only [agent_type] set), every gate, registered or not, returns a
    verdict. *)
Lemma validate_gate_returns_on_bare_context name agent :
  exists r, validate_gate name {[ "agent_type" := agent ]} = Ret r.
Proof.
  unfold validate_gate.
  destruct (GATE_VALIDATORS !! name) as [validator|] eqn:Hreg; [|eauto].
  unfold GATE_VALIDATORS, registry in Hreg.
  apply elem_of_list_to_map_2 in Hreg.
  repeat (apply elem_of_cons in Hreg as [Hreg | Hreg];
          [injection Hreg as -> ->; eexists; vm_compute; reflexivity |]).
  apply elem_of_nil in Hreg as [].
Qed.

(** *** Order on binary64 floats *)

Lemma SFcompare_swap (x y : spec_float) :
  SFcompare y x = CompOpp <$> SFcompare x y.
Proof.
  destruct x as [sx|sx| |sx mx ex], y as [sy|sy| |sy my ey];
    try destruct sx; try destruct sy; try reflexivity; simpl.
  - rewrite (Z.compare_antisym ex ey).
    destruct (ex ?= ey)%Z; simpl; try reflexivity.
    rewrite (Pos.compare_cont_antisym mx my Eq); reflexivity.
  - rewrite (Z.compare_antisym ex ey).
    destruct (ex ?= ey)%Z; simpl; try reflexivity.
    rewrite (Pos.compare_cont_antisym mx my Eq); reflexivity.
Qed.

Lemma float_lt_not_ge (x y : float) :
  (x <? y)%float = true -> (y <=? x)%float = false.
Proof.
  rewrite FloatAxioms.ltb_spec, FloatAxioms.leb_spec.
  unfold SFltb, SFleb.
  rewrite (SFcompare_swap (Prim2SF x) (Prim2SF y)).
  destruct (SFcompare (Prim2SF x) (Prim2SF y)) as [[]|]; simpl; congruence.
Qed.

Lemma float_lt_le (x y : float) :
  (x <? y)%float = true -> (x <=? y)%float = true.
Proof.
  rewrite FloatAxioms.ltb_spec, FloatAxioms.leb_spec.
  unfold SFltb, SFleb.
  destruct (SFcompare (Prim2SF x) (Prim2SF y)) as [[]|]; simpl; congruence.
Qed.

Lemma compare_cont_lt_iff (m n : positive) :
  Pos.compare_cont Eq m n = Lt <-> (m < n)%positive.
Proof. exact (Pos.compare_lt_iff m n). Qed.

Lemma float_below_06_below_08 (c : float) :
  (c <? 0.6)%float = true -> (c <? 0.8)%float = true.
Proof.
  rewrite (FloatAxioms.ltb_spec c 0.6), (FloatAxioms.ltb_spec c 0.8).
  assert (Prim2SF 0.6%float = S754_finite false 5404319552844595 (-53)) as ->
    by (vm_compute; reflexivity).
  assert (Prim2SF 0.8%float = S754_finite false 7205759403792794 (-53)) as ->
    by (vm_compute; reflexivity).
  unfold SFltb, SFcompare.
  destruct (Prim2SF c) as [s|s| |s m e]; try destruct s; try congruence.
  destruct (e ?= -53)%Z; try congruence.
  destruct (Pos.compare_cont Eq m 5404319552844595) eqn:Hm; try discriminate.
  intros _.
  apply compare_cont_lt_iff in Hm.
  assert (Pos.compare_cont Eq m 7205759403792794 = Lt) as ->
    by (apply compare_cont_lt_iff, Pos.lt_trans with (1 := Hm); reflexivity).
  reflexivity.
Qed.

(** The clamp of the validators lands in [0,1], whatever it is given (a NaN
    becomes 0). *)
Lemma clamp_in_unit_interval (s : float) :
  (0 <=? clamp s)%float = true /\ (clamp s <=? 1)%float = true.
Proof.
  unfold clamp, py_min, py_max.
  destruct (0 <? s)%float eqn:Hpos.
  - destruct (s <? 1)%float eqn:Hone.
    + split; apply float_lt_le; assumption.
    + split; reflexivity.
  - change (0 <? 1)%float with true. cbv iota. split; reflexivity.
Qed.

(** *** The confidence-action resolver *)

(** C7. [get_confidence_action] is total on floats and returns one of three
    actions: proceed when the confidence is at least 0.8, clarify when it is
    at least 0.6 and below 0.8, block when it is below 0.6; it maps 0.8 to
    proceed, 0.6 to clarify and 0.59 to block. *)
Theorem get_confidence_action_thresholds (confidence : float) :
  ((0.8 <=? confidence)%float = true ->
   get_confidence_action confidence = "proceed") /\
  ((0.6 <=? confidence)%float = true -> (confidence <? 0.8)%float = true ->
   get_confidence_action confidence = "clarify") /\
  ((confidence <? 0.6)%float = true ->
   get_confidence_action confidence = "block") /\
  get_confidence_action confidence ∈ ["proceed"; "clarify"; "block"] /\
  get_confidence_action 0.8 = "proceed" /\
  get_confidence_action 0.6 = "clarify" /\
  get_confidence_action 0.59 = "block".
Proof.
  unfold get_confidence_action, float_ge.
  repeat split; try reflexivity.
  - intros ->. reflexivity.
  - intros Hlow Hhigh.
    rewrite (float_lt_not_ge _ _ Hhigh), Hlow. reflexivity.
  - intros Hlow.
    rewrite (float_lt_not_ge _ _ (float_below_06_below_08 _ Hlow)).
    rewrite (float_lt_not_ge _ _ Hlow). reflexivity.
  - destruct (0.8 <=? confidence)%float; [set_solver|].
    destruct (0.6 <=? confidence)%float; set_solver.
Qed.

(** *** Gates without a validator *)

(** C2. For a gate name that is not in the registry, [validate_gate] returns,
    whatever the context, the auto-pass verdict: passed, score 1.0, threshold
    0.8, not blocking, no suggestions, and a feedback saying that no
    validator is defined for that gate. *)
Theorem validate_gate_unregistered (name : string) (context : gmap string pyval) :
  GATE_VALIDATORS !! name = None ->
  validate_gate name context =
    Ret {| gate_name := name;
           passed := true;
           score := PFloat 1%float;
           threshold := 0.8%float;
           feedback := [Lit "No validator defined for gate '"; Fmt (PStr name);
                        Lit "' - auto-pass"];
           suggestions := [];
           blocking := false |}.
Proof.
  unfold validate_gate. intros ->. reflexivity.
Qed.

Lemma validate_gate_unregistered_witness :
  GATE_VALIDATORS !! "input_clarty" = None /\
  validate_gate "input_clarty" {[ "data" := PDict {[ "query" := PStr "why" ]} ]} =
    Ret {| gate_name := "input_clarty";
           passed := true;
           score := PFloat 1%float;
           threshold := 0.8%float;
           feedback := [Lit "No validator defined for gate '"; Fmt (PStr "input_clarty");
                        Lit "' - auto-pass"];
           suggestions := [];
           blocking := false |}.
Proof.
  split; [vm_compute; reflexivity |].
  apply validate_gate_unregistered; vm_compute; reflexivity.
Defined.

(** *** Invariants of every verdict *)

(** C8. Whatever the gate name, registered or not, and whatever the context,
    a verdict of [validate_gate] that blocks has not passed. *)
Theorem blocking_implies_not_passed (name : string) (context : gmap string pyval)
    (r : QualityGateResult) :
  validate_gate name context = Ret r ->
  blocking r = true -> passed r = false.
Proof.
  intros H. apply (validate_gate_well_formed _ _ _ H).
Qed.

Lemma blocking_implies_not_passed_witness :
  exists r,
    validate_gate "security_check" one_check_met = Ret r /\
    blocking r = true /\ passed r = false.
Proof.
  eexists. split; [vm_compute; reflexivity |]. split; [reflexivity |].
  refine (blocking_implies_not_passed "security_check" one_check_met _ _ _);
    [vm_compute; reflexivity | reflexivity].
Defined.

(** C9. Whatever the gate name and the context, a verdict of [validate_gate]
    that passed carries no suggestion. *)
Theorem passed_has_no_suggestions (name : string) (context : gmap string pyval)
    (r : QualityGateResult) :
  validate_gate name context = Ret r ->
  passed r = true -> suggestions r = [].
Proof.
  intros H. apply (validate_gate_well_formed _ _ _ H).
Qed.

Lemma passed_has_no_suggestions_witness :
  exists r,
    validate_gate "source_coverage" well_sourced = Ret r /\
    passed r = true /\ suggestions r = [].
Proof.
  eexists. split; [vm_compute; reflexivity |]. split; [reflexivity |].
  refine (passed_has_no_suggestions "source_coverage" well_sourced _ _ _);
    [vm_compute; reflexivity | reflexivity].
Defined.

(** C10. Whatever the gate name, registered or not, and whatever the context,
    the verdict of [validate_gate] carries the requested gate name; that is,
    every registered validator writes the name it is registered under. *)
Theorem verdict_carries_requested_name (name : string) (context : gmap string pyval)
    (r : QualityGateResult) :
  validate_gate name context = Ret r ->
  gate_name r = name /\
  forall validator ctx r',
    GATE_VALIDATORS !! name = Some validator ->
    validator ctx = Ret r' -> gate_name r' = name.
Proof.
  intros H. split.
  - apply (validate_gate_well_formed _ _ _ H).
  - intros validator ctx r' Hreg Hr'.
    apply (registered_well_formed _ _ Hreg _ _ Hr').
Qed.

Lemma verdict_carries_requested_name_witness :
  exists r,
    validate_gate "memory_relevance" one_good_match = Ret r /\
    gate_name r = "memory_relevance".
Proof.
  eexists. split; [vm_compute; reflexivity |].
  refine (proj1 (verdict_carries_requested_name "memory_relevance" one_good_match _ _)).
  vm_compute; reflexivity.
Defined.

(** *** The security check *)

(** C5. On a context whose data and security checks are dictionaries,
    [validate_security_check] returns a verdict whose score is the weighted
    sum of the five indicators (input validation 0.25, output encoding 0.20,
    auth checks 0.25, no data exposure 0.15, injection prevention 0.15) and
    whose threshold is 0.9; when one indicator at least is unmet, the verdict
    blocks. *)
Theorem validate_security_check_weighted_sum (ctx : GateContext)
    (d checks : gmap string pyval) :
  data ctx = PDict d ->
  default (PDict ∅) (d !! "security_checks") = PDict checks ->
  exists r,
    validate_security_check ctx = Ret r /\
    score r = PFloat (security_weighted_sum (indicator_met checks)) /\
    threshold r = 0.9%float /\
    ((exists item, item ∈ security_indicators /\ indicator_met checks item = false) ->
     blocking r = true).
Proof.
  intros Hd Hchecks.
  unfold validate_security_check. rewrite Hd.
  change (py_get (PDict d) "security_checks" (PDict ∅))
    with (Ret (default (PDict ∅) (d !! "security_checks"))).
  rewrite Hchecks.
  cbn [bind for_each security_items py_get].
  unfold security_weighted_sum, security_indicators.
  unfold indicator_met.
  destruct (truthy (default (PBool false) (checks !! "input_validation"))) eqn:E1;
  destruct (truthy (default (PBool false) (checks !! "output_encoding"))) eqn:E2;
  destruct (truthy (default (PBool false) (checks !! "auth_checks"))) eqn:E3;
  destruct (truthy (default (PBool false) (checks !! "no_data_exposure"))) eqn:E4;
  destruct (truthy (default (PBool false) (checks !! "injection_prevention"))) eqn:E5;
  (eexists; split; [reflexivity |];
   split; [vm_compute; reflexivity |];
   split; [reflexivity |];
   first [ intros _; vm_compute; reflexivity
         | intros (item & Hin & Hmet); exfalso;
           repeat (apply elem_of_cons in Hin as [-> | Hin]; [congruence |]);
           apply elem_of_nil in Hin as [] ]).
Qed.

Lemma validate_security_check_weighted_sum_witness :
  exists r,
    validate_security_check (context_of security_reviewed)
      = Ret r /\
    score r = PFloat (security_weighted_sum (indicator_met four_checks_met)) /\
    threshold r = 0.9%float /\
    ((exists item, item ∈ security_indicators /\
                   indicator_met four_checks_met item = false) ->
     blocking r = true).
Proof.
  refine (validate_security_check_weighted_sum
            (context_of security_reviewed)
            security_reviewed four_checks_met _ _);
    vm_compute; reflexivity.
Defined.

(** *** The input clarity *)

(** C6. On a context whose data is a dictionary, [validate_input_clarity]
    returns, for an empty query, a verdict of score 0.0 that blocks; for a
    query that is a non-empty string, a verdict whose score is the clamped sum
    of +0.3 for 5 words or more, +0.2 for 10 or more, +0.1 for 100 or fewer,
    +0.2 for a question marker and +0.2 for a technical term, which passes
    when the score reaches 0.8 and blocks when it has not passed and the score
    is below 0.6; a query of 12 words with a question marker and a technical
    term scores 1.0. *)
Theorem validate_input_clarity_scoring (ctx : GateContext) (d : gmap string pyval) :
  data ctx = PDict d ->
  (truthy (default (PStr "") (d !! "query")) = false ->
   exists r,
     validate_input_clarity ctx = Ret r /\
     score r = PFloat 0%float /\ passed r = false /\ blocking r = true) /\
  (forall q : string,
     default (PStr "") (d !! "query") = PStr q -> q <> "" ->
     let s := input_clarity_score (word_count q) (mentions question_markers q)
                (mentions tech_indicators q) in
     exists r,
       validate_input_clarity ctx = Ret r /\
       score r = PFloat s /\
       passed r = (0.8 <=? s)%float /\
       blocking r = negb (passed r) && (s <? 0.6)%float /\
       (word_count q = 12%Z -> mentions question_markers q = true ->
        mentions tech_indicators q = true -> score r = PFloat 1%float)).
Proof.
  intros Hd.
  unfold validate_input_clarity, any_in_lower. rewrite Hd.
  change (py_get (PDict d) "query" (PStr ""))
    with (Ret (default (PStr "") (d !! "query"))).
  cbn [bind].
  split.
  - intros ->. cbn [negb]. eexists. repeat split.
  - intros q -> Hq. rewrite (truthy_str q Hq).
    cbn [negb bind py_split py_lower]. cbv zeta.
    unfold input_clarity_score, word_count, mentions.
    generalize (existsb (fun t => contains t (lower q)) tech_indicators) as technical.
    generalize (existsb (fun t => contains t (lower q)) question_markers) as asks.
    generalize (Z.of_nat (length (split q))) as n.
    intros n asks technical.
    destruct (5 <=? n)%Z eqn:E5, (10 <=? n)%Z eqn:E10, (n <=? 100)%Z eqn:E100,
             asks, technical;
      (eexists; split; [reflexivity |]; cbn [score passed blocking];
       split; [vm_compute; reflexivity |];
       split; [vm_compute; reflexivity |];
       split; [vm_compute; reflexivity |];
       intros -> Ha Ht;
       first [ discriminate | vm_compute; reflexivity ]).
Qed.

Lemma validate_input_clarity_scoring_witness :
  exists r,
    validate_input_clarity (context_of clear_query) = Ret r /\
    score r = PFloat 1%float.
Proof.
  assert (default (PStr "") (clear_query !! "query") = PStr twelve_words) as Hq
    by (vm_compute; reflexivity).
  destruct (proj2 (validate_input_clarity_scoring (context_of clear_query) clear_query
                     eq_refl) twelve_words Hq ltac:(discriminate))
    as (r & Hr & _ & _ & _ & H12).
  exists r. split; [exact Hr |].
  apply H12; vm_compute; reflexivity.
Defined.

(** *** No regressions *)

(** C4, as stated, fails: with [tests_run = -1], [tests_passed = 5] and
    [tests_failed = 1] the guard [if tests_run > 0 else 0] makes the score 0,
    while [tests_passed / tests_run] is -5.0. *)
Lemma no_regressions_negative_run_counterexample :
  (exists r,
     validate_no_regressions (context_of negative_run) = Ret r /\
     score r = PInt 0 /\
     py_truediv (PInt 5) (PInt (-1)) = Ret (-5)%float /\
     same_number (score r) (PFloat (-5)%float) = false) /\
  ~ no_regressions_score_as_specified.
Proof.
  split.
  - eexists. repeat split; vm_compute; reflexivity.
  - intros H.
    destruct (H (context_of negative_run) negative_run (-1)%Z 5%Z 1%Z
                _ eq_refl ltac:(vm_compute; reflexivity) ltac:(vm_compute; reflexivity)
                ltac:(vm_compute; reflexivity) ltac:(discriminate) ltac:(reflexivity)
                ltac:(vm_compute; reflexivity))
      as (q & Hq & Hsame).
    vm_compute in Hq. injection Hq as <-.
    vm_compute in Hsame. discriminate.
Qed.

(** C4, amended. On a context whose data is a dictionary,
    [validate_no_regressions] returns: when [tests_run == 0], a verdict that
    has not passed, of score 0, threshold 1.0, blocking; otherwise, when
    [tests_failed > 0], a verdict that has not passed, blocking, with one
    suggestion for each of the first 3 failing tests, whose score is
    [tests_passed / tests_run] when [tests_run > 0] and the integer 0 when
    [tests_run] is negative; otherwise (the pass rate still being computed
    first) a verdict that passed, of score 1.0, not blocking. *)
Theorem validate_no_regressions_branches (ctx : GateContext) (d : gmap string pyval)
    (tests_run tests_passed tests_failed : pyval) :
  data ctx = PDict d ->
  default (PInt 0) (d !! "tests_run") = tests_run ->
  default (PInt 0) (d !! "tests_passed") = tests_passed ->
  default (PInt 0) (d !! "tests_failed") = tests_failed ->
  (py_eq tests_run (NInt 0) = true ->
   exists r,
     validate_no_regressions ctx = Ret r /\
     passed r = false /\ score r = PFloat 0%float /\ threshold r = 1%float /\
     blocking r = true) /\
  (forall (q : float) (failures : list pyval),
     py_eq tests_run (NInt 0) = false ->
     py_gt tests_run (NInt 0) = Ret true ->
     py_truediv tests_passed tests_run = Ret q ->
     py_gt tests_failed (NInt 0) = Ret true ->
     default (PList []) (d !! "new_failures") = PList failures ->
     exists r,
       validate_no_regressions ctx = Ret r /\
       passed r = false /\ score r = PFloat q /\ threshold r = 1%float /\
       blocking r = true /\
       suggestions r = (fun f => [Lit "Fix failing test: "; Fmt f]) <$> take 3 failures) /\
  (forall failures : list pyval,
     py_eq tests_run (NInt 0) = false ->
     py_gt tests_run (NInt 0) = Ret false ->
     py_gt tests_failed (NInt 0) = Ret true ->
     default (PList []) (d !! "new_failures") = PList failures ->
     exists r,
       validate_no_regressions ctx = Ret r /\
       passed r = false /\ score r = PInt 0 /\ threshold r = 1%float /\
       blocking r = true /\
       suggestions r = (fun f => [Lit "Fix failing test: "; Fmt f]) <$> take 3 failures) /\
  (forall positive : bool,
     py_eq tests_run (NInt 0) = false ->
     py_gt tests_run (NInt 0) = Ret positive ->
     (positive = true -> exists q, py_truediv tests_passed tests_run = Ret q) ->
     py_gt tests_failed (NInt 0) = Ret false ->
     exists r,
       validate_no_regressions ctx = Ret r /\
       passed r = true /\ score r = PFloat 1%float /\ threshold r = 1%float /\
       blocking r = false /\ suggestions r = []).
Proof.
  intros Hd Hrun Hpassed Hfailed.
  unfold validate_no_regressions. rewrite Hd.
  cbn [py_get bind]. rewrite Hrun, Hpassed, Hfailed.
  repeat split.
  - intros ->. eexists. repeat split.
  - intros q failures -> -> -> -> ->. cbn [bind py_slice_to].
    eexists. repeat split.
  - intros failures -> -> -> ->. cbn [bind py_slice_to].
    eexists. repeat split.
  - intros positive -> -> Hq ->. destruct positive.
    + destruct (Hq eq_refl) as (q & ->). cbn [bind]. eexists. repeat split.
    + cbn [bind]. eexists. repeat split.
Qed.

Lemma validate_no_regressions_branches_witness :
  exists r,
    validate_no_regressions (context_of one_failure) = Ret r /\
    passed r = false /\ score r = PFloat 0.9%float /\ threshold r = 1%float /\
    blocking r = true /\
    suggestions r = [[Lit "Fix failing test: "; Fmt (PStr "t1")];
                     [Lit "Fix failing test: "; Fmt (PStr "t2")];
                     [Lit "Fix failing test: "; Fmt (PStr "t3")]].
Proof.
  refine (proj1 (proj2 (validate_no_regressions_branches (context_of one_failure)
                          one_failure (PInt 10) (PInt 9) (PInt 1) _ _ _ _))
            0.9%float [PStr "t1"; PStr "t2"; PStr "t3"; PStr "t4"] _ _ _ _ _);
    vm_compute; reflexivity.
Defined.

(** *** The gate event *)

(** C3, as stated, fails: for the payload [{"score": 0.75, "threshold": 0.7}]
    the event has [passed = False] although the score reaches the payload's
    threshold, which the event carries unchanged. *)
Lemma build_gate_event_lenient_counterexample :
  (exists ev,
     ProtocolEvent.build_gate_event "reviewer" lenient_gate = Ret ev /\
     ProtocolEvent.score ev = PFloat 0.75 /\
     ProtocolEvent.threshold ev = PFloat 0.7 /\
     ProtocolEvent.passed ev = PBool false /\
     num_ge (NFloat 0.75) (NFloat 0.7) = true) /\
  ~ gate_passed_as_specified.
Proof.
  split.
  - eexists. repeat split; vm_compute; reflexivity.
  - intros H.
    specialize (H "reviewer" lenient_gate (NFloat 0.75) (NFloat 0.7) _
                  ltac:(vm_compute; reflexivity) ltac:(vm_compute; reflexivity)
                  ltac:(vm_compute; reflexivity) ltac:(vm_compute; reflexivity)).
    vm_compute in H. discriminate.
Qed.

(** C3, amended. For a payload without a [passed] field whose score (0.0 when
    absent) is a number, [build_gate_event] returns an event whose [passed] is
    [score >= 0.8], the constant threshold, whatever the payload's own
    threshold; the event's threshold is the payload's when it has one and 0.8
    otherwise. *)
Theorem build_gate_event_passed_default (agent : string) (payload : gmap string pyval)
    (s : number) :
  payload !! "passed" = None ->
  as_number (default (PFloat 0%float) (payload !! "score")) = Some s ->
  exists ev,
    ProtocolEvent.build_gate_event agent payload = Ret ev /\
    ProtocolEvent.passed ev = PBool (num_ge s (NFloat 0.8%float)) /\
    ProtocolEvent.score ev = default (PFloat 0%float) (payload !! "score") /\
    ProtocolEvent.threshold ev = default (PFloat 0.8%float) (payload !! "threshold").
Proof.
  intros Hpassed Hs.
  unfold ProtocolEvent.build_gate_event, py_ge. cbv zeta.
  rewrite Hs, Hpassed. cbn [bind default]. 
  eexists. repeat split.
Qed.

Lemma build_gate_event_passed_default_witness :
  exists ev,
    ProtocolEvent.build_gate_event "researcher" bare_score = Ret ev /\
    ProtocolEvent.passed ev = PBool (num_ge (NFloat 0.85) (NFloat 0.8%float)) /\
    ProtocolEvent.score ev = default (PFloat 0%float) (bare_score !! "score") /\
    ProtocolEvent.threshold ev = default (PFloat 0.8%float) (bare_score !! "threshold").
Proof.
  refine (build_gate_event_passed_default "researcher" bare_score (NFloat 0.85) _ _);
    vm_compute; reflexivity.
Defined.

(** *** Scores outside the unit interval *)

(** C1 does not hold of the code: [validate_decision_confidence] and
    [validate_memory_relevance] store the context's number as the score and
    cap it only inside their bonus branches, so a confidence of 5 or of -1.5
    and a top relevance of 5.0 come back as scores outside [0,1]. *)
Theorem unclamped_scores_leave_unit_interval :
  (exists r,
     validate_gate "decision_confidence" overconfident = Ret r /\
     score r = PInt 5 /\ passed r = true /\ in_unit_interval (score r) = false) /\
  (exists r,
     validate_gate "decision_confidence" negative_confidence = Ret r /\
     score r = PFloat (-1.5) /\ in_unit_interval (score r) = false) /\
  (exists r,
     validate_gate "memory_relevance" overrated_match = Ret r /\
     score r = PFloat 5 /\ passed r = true /\ in_unit_interval (score r) = false).
Proof.
  repeat split; eexists; repeat split; vm_compute; reflexivity.
Qed.

(** ** Further properties of the gates *)

(** *** Comparisons *)

Lemma SFcompare_flatten (x y : float) :
  float_compare x y =
    SFcompare (Prim2SF x) (Prim2SF y).
Proof.
  unfold float_compare. rewrite FloatAxioms.compare_spec.
  destruct (SFcompare (Prim2SF x) (Prim2SF y)) as [[]|]; reflexivity.
Qed.

Lemma num_ge_float (s t : float) : num_ge (NFloat s) (NFloat t) = (t <=? s)%float.
Proof.
  unfold num_ge, num_compare. rewrite SFcompare_flatten, FloatAxioms.leb_spec.
  unfold SFleb. rewrite (SFcompare_swap (Prim2SF t) (Prim2SF s)).
  destruct (SFcompare (Prim2SF t) (Prim2SF s)) as [[]|]; reflexivity.
Qed.

Lemma clamped_passed_at_threshold t r :
  clamped_verdict t r -> passed_at_threshold r.
Proof.
  intros (Ht & s & Hs & _ & _ & Hp). unfold passed_at_threshold.
  rewrite Hs, Ht, Hp. unfold py_ge. cbn [as_number]. rewrite num_ge_float. reflexivity.
Qed.

Lemma graded_blocking (s : float) :
  negb (float_ge s 0.8) && (s <? 0.6)%float = (s <? 0.6)%float.
Proof.
  unfold float_ge. destruct (s <? 0.6)%float eqn:Hs.
  - rewrite (float_lt_not_ge _ _ (float_below_06_below_08 _ Hs)). reflexivity.
  - apply andb_false_r.
Qed.

(** A number that reaches an integer reaches every smaller integer. *)
Lemma num_ge_int_mono (x : number) (a b : Z) :
  (a <= b)%Z -> num_ge x (NInt b) = true -> num_ge x (NInt a) = true.
Proof.
  intros Hab. unfold num_ge, num_compare. destruct x as [z|f].
  - destruct (Z.compare_spec z b), (Z.compare_spec z a); try easy; lia.
  - destruct (Prim2SF f) as [s|s| |s m e]; cbn [Z_SF_compare fmap option_fmap option_map].
    + destruct (Z.compare_spec b 0), (Z.compare_spec a 0); cbn; try easy; lia.
    + destruct s; cbn; easy.
    + easy.
    + destruct (0 <=? e)%Z eqn:He.
      * generalize ((if s then Z.neg m else Z.pos m) * 2 ^ e)%Z as v. intros v.
        destruct (Z.compare_spec b v), (Z.compare_spec a v); cbn; try easy; lia.
      * apply Z.leb_gt in He.
        assert (0 < 2 ^ (- e))%Z as Hpos by (apply Z.pow_pos_nonneg; lia).
        generalize dependent (2 ^ (- e))%Z. intros p Hp.
        generalize (if s then Z.neg m else Z.pos m) as v. intros v.
        destruct (Z.compare_spec (b * p) v), (Z.compare_spec (a * p) v);
          cbn; try easy; nia.
Qed.

Lemma num_ge_int_mono_60_80 (x : number) :
  num_ge x (NInt 80) = true -> num_ge x (NInt 60) = true.
Proof. apply num_ge_int_mono. lia. Qed.

Lemma float_1_not_08 : 1%float <> 0.8%float.
Proof.
  intros H. assert ((1 =? 0.8)%float = true) as Heq by (rewrite <- H; reflexivity).
  vm_compute in Heq. discriminate.
Qed.

Lemma py_min_le_1 (x : float) : (py_min 1 x <=? 1)%float = true.
Proof.
  unfold py_min. destruct (x <? 1)%float eqn:Hx.
  - apply float_lt_le, Hx.
  - reflexivity.
Qed.

Lemma capped_bonus_le_1 (v v' : pyval) (b : float) :
  capped_bonus v b = Ret v' -> exists s, v' = PFloat s /\ (s <=? 1)%float = true.
Proof.
  unfold capped_bonus. intros H. returned H. injection H as <-.
  eexists. split; [reflexivity | apply py_min_le_1].
Qed.

(** *** The validators that clamp *)

Ltac clamped_facts :=
  split; [reflexivity |];
  eexists; split; [reflexivity |];
  first [ split; [apply clamp_in_unit_interval |];
          split; [apply clamp_in_unit_interval | reflexivity]
        | repeat split; reflexivity ].

Ltac clamped H := returned H; injection H as <-; clamped_facts.

Lemma validate_input_clarity_clamped ctx r :
  validate_input_clarity ctx = Ret r -> clamped_verdict 0.8 r.
Proof. unfold validate_input_clarity; intros H; clamped H. Qed.

Lemma validate_source_coverage_clamped ctx r :
  validate_source_coverage ctx = Ret r -> clamped_verdict 0.7 r.
Proof. unfold validate_source_coverage; intros H; clamped H. Qed.

Lemma validate_synthesis_quality_clamped ctx r :
  validate_synthesis_quality ctx = Ret r -> clamped_verdict 0.8 r.
Proof. unfold validate_synthesis_quality; intros H; clamped H. Qed.

Lemma validate_requirements_clarity_clamped ctx r :
  validate_requirements_clarity ctx = Ret r -> clamped_verdict 0.8 r.
Proof. unfold validate_requirements_clarity; intros H; clamped H. Qed.

Lemma validate_code_quality_clamped ctx r :
  validate_code_quality ctx = Ret r -> clamped_verdict 0.8 r.
Proof. unfold validate_code_quality; intros H; clamped H. Qed.

Lemma validate_test_coverage_clamped ctx r :
  validate_test_coverage ctx = Ret r -> clamped_verdict 0.8 r.
Proof. unfold validate_test_coverage; intros H; clamped H. Qed.

Lemma validate_review_completeness_clamped ctx r :
  validate_review_completeness ctx = Ret r -> clamped_verdict 0.8 r.
Proof. unfold validate_review_completeness; intros H; clamped H. Qed.

Lemma validate_security_check_clamped ctx r :
  validate_security_check ctx = Ret r -> clamped_verdict 0.9 r.
Proof. unfold validate_security_check; intros H; clamped H. Qed.

Lemma validate_decision_clarity_clamped ctx r :
  validate_decision_clarity ctx = Ret r -> clamped_verdict 0.8 r.
Proof. unfold validate_decision_clarity; intros H; clamped H. Qed.

Lemma validate_perspective_coverage_clamped ctx r :
  validate_perspective_coverage ctx = Ret r -> clamped_verdict 0.8 r.
Proof. unfold validate_perspective_coverage; intros H; clamped H. Qed.

(** *** The validators that do not *)

Lemma validate_decision_confidence_passed ctx r :
  validate_decision_confidence ctx = Ret r ->
  threshold r = 0.8%float /\ passed_at_threshold r /\ blocking r = false.
Proof.
  unfold validate_decision_confidence, passed_at_threshold; intros H.
  returned H; injection H as <-; cbn [threshold score passed blocking];
    repeat split; assumption.
Qed.

Lemma validate_memory_relevance_passed ctx r :
  validate_memory_relevance ctx = Ret r ->
  threshold r = 0.7%float /\ passed_at_threshold r /\ blocking r = false.
Proof.
  unfold validate_memory_relevance, passed_at_threshold; intros H.
  returned H; injection H as <-; cbn [threshold score passed blocking];
    repeat split; assumption.
Qed.

Lemma validate_no_regressions_threshold ctx r :
  validate_no_regressions ctx = Ret r -> threshold r = 1%float.
Proof.
  unfold validate_no_regressions; intros H.
  returned H; injection H as <-; reflexivity.
Qed.

(** *** Blocking *)

Ltac never_blocks H := returned H; injection H as <-; reflexivity.

Lemma validate_source_coverage_advisory ctx r :
  validate_source_coverage ctx = Ret r -> blocking r = false.
Proof. unfold validate_source_coverage; intros H; never_blocks H. Qed.

Lemma validate_test_coverage_advisory ctx r :
  validate_test_coverage ctx = Ret r -> blocking r = false.
Proof. unfold validate_test_coverage; intros H; never_blocks H. Qed.

Lemma validate_review_completeness_advisory ctx r :
  validate_review_completeness ctx = Ret r -> blocking r = false.
Proof. unfold validate_review_completeness; intros H; never_blocks H. Qed.

Lemma validate_perspective_coverage_advisory ctx r :
  validate_perspective_coverage ctx = Ret r -> blocking r = false.
Proof. unfold validate_perspective_coverage; intros H; never_blocks H. Qed.

Ltac graded H :=
  returned H; injection H as <-;
  eexists; (split; [reflexivity |]); cbn [blocking];
  first [apply graded_blocking | reflexivity].

Lemma validate_input_clarity_graded ctx r :
  validate_input_clarity ctx = Ret r ->
  exists s, score r = PFloat s /\ blocking r = (s <? 0.6)%float.
Proof. unfold validate_input_clarity; intros H; graded H. Qed.

Lemma validate_synthesis_quality_graded ctx r :
  validate_synthesis_quality ctx = Ret r ->
  exists s, score r = PFloat s /\ blocking r = (s <? 0.6)%float.
Proof. unfold validate_synthesis_quality; intros H; graded H. Qed.

Lemma validate_requirements_clarity_graded ctx r :
  validate_requirements_clarity ctx = Ret r ->
  exists s, score r = PFloat s /\ blocking r = (s <? 0.6)%float.
Proof. unfold validate_requirements_clarity; intros H; graded H. Qed.

Lemma validate_code_quality_graded ctx r :
  validate_code_quality ctx = Ret r ->
  exists s, score r = PFloat s /\ blocking r = (s <? 0.6)%float.
Proof. unfold validate_code_quality; intros H; graded H. Qed.

Lemma validate_decision_clarity_graded ctx r :
  validate_decision_clarity ctx = Ret r ->
  exists s, score r = PFloat s /\ blocking r = (s <? 0.6)%float.
Proof. unfold validate_decision_clarity; intros H; graded H. Qed.

(** *** Gate by gate *)

(** The registered validators, one case each. *)
Ltac each_gate Hreg :=
  unfold GATE_VALIDATORS, registry in Hreg;
  apply elem_of_list_to_map_2 in Hreg;
  repeat (apply elem_of_cons in Hreg as [Hreg | Hreg];
          [injection Hreg as -> -> |]);
  [.. | apply elem_of_nil in Hreg as []].

Ltac absurd_name Hn := solve [exfalso; apply Hn; repeat constructor].

(** The cases of a name taken from a list of gate names. *)
Ltac each_name Hin :=
  repeat (apply elem_of_cons in Hin as [-> | Hin]);
  [.. | apply elem_of_nil in Hin as []].

(** A name is none of the names of a list. *)
Ltac not_listed :=
  let H := fresh in
  intros H;
  repeat (apply elem_of_cons in H as [H | H]; [discriminate H |]);
  apply elem_of_nil in H as [].

Lemma unregistered_name name :
  GATE_VALIDATORS !! name = None -> name ∉ registry.*1.
Proof.
  intros Hreg Hin. apply registered_names in Hin as [v Hv]. congruence.
Qed.

(** X1. For every gate but no_regressions, decision_confidence and
    memory_relevance, registered or not, the score of a verdict of
    [validate_gate] is a float between 0 and 1. *)
Theorem clamped_gates_score_in_unit_interval (name : string)
    (context : gmap string pyval) (r : QualityGateResult) :
  name ∉ unclamped_gates ->
  validate_gate name context = Ret r ->
  exists s, score r = PFloat s /\ (0 <=? s)%float = true /\ (s <=? 1)%float = true.
Proof.
  intros Hn. unfold validate_gate.
  destruct (GATE_VALIDATORS !! name) as [validator|] eqn:Hreg.
  - intros H.
    assert (exists t, clamped_verdict t r) as (t & _ & s & Hs & H0 & H1 & _);
      [| exists s; auto].
    each_gate Hreg;
      first [ absurd_name Hn
            | eexists; eauto using validate_input_clarity_clamped,
                validate_source_coverage_clamped, validate_synthesis_quality_clamped,
                validate_requirements_clarity_clamped, validate_code_quality_clamped,
                validate_test_coverage_clamped, validate_review_completeness_clamped,
                validate_security_check_clamped, validate_decision_clarity_clamped,
                validate_perspective_coverage_clamped ].
  - intros [= <-]. exists 1%float. repeat split.
Qed.

Lemma clamped_gates_score_in_unit_interval_witness :
  exists r,
    validate_gate "source_coverage" well_sourced = Ret r /\
    exists s, score r = PFloat s /\ (0 <=? s)%float = true /\ (s <=? 1)%float = true.
Proof.
  eexists. split; [vm_compute; reflexivity |].
  refine (clamped_gates_score_in_unit_interval "source_coverage" well_sourced _ _ _);
    [not_listed | vm_compute; reflexivity].
Defined.

(** X2. The threshold of a verdict depends on the gate alone: 0.7 for
    source_coverage and memory_relevance, 0.9 for security_check, 1.0 for
    no_regressions and 0.8 for every other gate, registered or not. *)
Theorem verdict_threshold_by_gate (name : string) (context : gmap string pyval)
    (r : QualityGateResult) :
  validate_gate name context = Ret r ->
  threshold r = gate_threshold name.
Proof.
  unfold validate_gate.
  destruct (GATE_VALIDATORS !! name) as [validator|] eqn:Hreg.
  - intros H.
    each_gate Hreg;
      first [ apply validate_input_clarity_clamped in H
            | apply validate_source_coverage_clamped in H
            | apply validate_synthesis_quality_clamped in H
            | apply validate_requirements_clarity_clamped in H
            | apply validate_code_quality_clamped in H
            | apply validate_test_coverage_clamped in H
            | apply validate_review_completeness_clamped in H
            | apply validate_security_check_clamped in H
            | apply validate_decision_clarity_clamped in H
            | apply validate_perspective_coverage_clamped in H
            | apply validate_decision_confidence_passed in H
            | apply validate_memory_relevance_passed in H
            | apply validate_no_regressions_threshold in H ];
      first [ exact H | exact (proj1 H) ].
  - intros [= <-]. cbn [threshold].
    apply unregistered_name in Hreg. unfold gate_threshold.
    repeat case_bool_decide; try reflexivity; exfalso; apply Hreg;
      repeat match goal with
             | H : _ ∈ _ |- _ => apply elem_of_cons in H as [-> | H]
             | H : _ ∈ [] |- _ => apply elem_of_nil in H as []
             | H : name = _ |- _ => rewrite H
             end;
      cbn; repeat constructor.
Qed.

Lemma verdict_threshold_by_gate_witness :
  exists r,
    validate_gate "security_check" one_check_met = Ret r /\
    threshold r = 0.9%float.
Proof.
  eexists. split; [vm_compute; reflexivity |].
  refine (verdict_threshold_by_gate "security_check" one_check_met _ _).
  vm_compute; reflexivity.
Defined.

Lemma validate_gate_passed_at_threshold (name : string)
    (context : gmap string pyval) (r : QualityGateResult) :
  name <> "no_regressions" ->
  validate_gate name context = Ret r ->
  passed_at_threshold r.
Proof.
  intros Hn. unfold validate_gate.
  destruct (GATE_VALIDATORS !! name) as [validator|] eqn:Hreg.
  - intros H.
    each_gate Hreg;
      try solve [exfalso; apply Hn; reflexivity];
      first [ apply validate_input_clarity_clamped in H
            | apply validate_source_coverage_clamped in H
            | apply validate_synthesis_quality_clamped in H
            | apply validate_requirements_clarity_clamped in H
            | apply validate_code_quality_clamped in H
            | apply validate_test_coverage_clamped in H
            | apply validate_review_completeness_clamped in H
            | apply validate_security_check_clamped in H
            | apply validate_decision_clarity_clamped in H
            | apply validate_perspective_coverage_clamped in H
            | apply validate_decision_confidence_passed in H
            | apply validate_memory_relevance_passed in H ];
      first [ exact (clamped_passed_at_threshold _ _ H) | exact (proj1 (proj2 H)) ].
  - intros [= <-]. reflexivity.
Qed.

(** X3. For every gate but no_regressions, a verdict of [validate_gate]
    passed exactly when its score reaches its threshold, as Python's
    [score >= threshold] has it. *)
Theorem passed_iff_score_reaches_threshold (name : string)
    (context : gmap string pyval) (r : QualityGateResult) :
  name <> "no_regressions" ->
  validate_gate name context = Ret r ->
  py_ge (score r) (NFloat (threshold r)) = Ret (passed r).
Proof. exact (validate_gate_passed_at_threshold name context r). Qed.

Lemma passed_iff_score_reaches_threshold_witness :
  exists r,
    validate_gate "decision_confidence" overconfident = Ret r /\
    py_ge (score r) (NFloat (threshold r)) = Ret (passed r).
Proof.
  eexists. split; [vm_compute; reflexivity |].
  refine (passed_iff_score_reaches_threshold "decision_confidence" overconfident _ _ _);
    [discriminate | vm_compute; reflexivity].
Defined.

(** X4. source_coverage, test_coverage, review_completeness,
    perspective_coverage, decision_confidence and memory_relevance never
    block, whatever the context. *)
Theorem advisory_gates_never_block (name : string) (context : gmap string pyval)
    (r : QualityGateResult) :
  name ∈ advisory_gates ->
  validate_gate name context = Ret r ->
  blocking r = false.
Proof.
  intros Hin. unfold advisory_gates in Hin. each_name Hin; unfold validate_gate.
  - change (GATE_VALIDATORS !! "source_coverage") with (Some validate_source_coverage).
    apply validate_source_coverage_advisory.
  - change (GATE_VALIDATORS !! "test_coverage") with (Some validate_test_coverage).
    apply validate_test_coverage_advisory.
  - change (GATE_VALIDATORS !! "review_completeness")
      with (Some validate_review_completeness).
    apply validate_review_completeness_advisory.
  - change (GATE_VALIDATORS !! "perspective_coverage")
      with (Some validate_perspective_coverage).
    apply validate_perspective_coverage_advisory.
  - change (GATE_VALIDATORS !! "decision_confidence")
      with (Some validate_decision_confidence).
    apply validate_decision_confidence_passed.
  - change (GATE_VALIDATORS !! "memory_relevance") with (Some validate_memory_relevance).
    apply validate_memory_relevance_passed.
Qed.

Lemma advisory_gates_never_block_witness :
  exists r,
    validate_gate "memory_relevance" one_good_match = Ret r /\ blocking r = false.
Proof.
  eexists. split; [vm_compute; reflexivity |].
  refine (advisory_gates_never_block "memory_relevance" one_good_match _ _ _);
    [repeat constructor | vm_compute; reflexivity].
Defined.

(** X5. input_clarity, synthesis_quality, requirements_clarity, code_quality
    and decision_clarity block exactly when the score is below 0.6: the test
    [not passed] of [blocking = not passed and score < 0.6] never decides. *)
Theorem graded_gates_block_below_06 (name : string) (context : gmap string pyval)
    (r : QualityGateResult) :
  name ∈ graded_gates ->
  validate_gate name context = Ret r ->
  exists s, score r = PFloat s /\ blocking r = (s <? 0.6)%float.
Proof.
  intros Hin. unfold graded_gates in Hin. each_name Hin; unfold validate_gate.
  - change (GATE_VALIDATORS !! "input_clarity") with (Some validate_input_clarity).
    apply validate_input_clarity_graded.
  - change (GATE_VALIDATORS !! "synthesis_quality") with (Some validate_synthesis_quality).
    apply validate_synthesis_quality_graded.
  - change (GATE_VALIDATORS !! "requirements_clarity")
      with (Some validate_requirements_clarity).
    apply validate_requirements_clarity_graded.
  - change (GATE_VALIDATORS !! "code_quality") with (Some validate_code_quality).
    apply validate_code_quality_graded.
  - change (GATE_VALIDATORS !! "decision_clarity") with (Some validate_decision_clarity).
    apply validate_decision_clarity_graded.
Qed.

Lemma graded_gates_block_below_06_witness :
  exists r,
    validate_gate "code_quality" ∅ = Ret r /\
    exists s, score r = PFloat s /\ blocking r = (s <? 0.6)%float.
Proof.
  eexists. split; [vm_compute; reflexivity |].
  refine (graded_gates_block_below_06 "code_quality" ∅ _ _ _);
    [repeat constructor | vm_compute; reflexivity].
Defined.

(** *** What a verdict depends on *)

Lemma registered_reads_data_only name validator :
  GATE_VALIDATORS !! name = Some validator ->
  forall ctx1 ctx2, data ctx1 = data ctx2 -> validator ctx1 = validator ctx2.
Proof.
  intros Hreg ctx1 ctx2 Hd.
  each_gate Hreg;
    [ unfold validate_input_clarity | unfold validate_source_coverage
    | unfold validate_synthesis_quality | unfold validate_requirements_clarity
    | unfold validate_code_quality | unfold validate_test_coverage
    | unfold validate_no_regressions | unfold validate_review_completeness
    | unfold validate_security_check | unfold validate_decision_clarity
    | unfold validate_perspective_coverage | unfold validate_decision_confidence
    | unfold validate_memory_relevance ];
    rewrite Hd; reflexivity.
Qed.

(** X6. The verdict of [validate_gate] depends on the [data] of the context
    alone: neither the session, the agent type, the phase nor the history can
    change it. *)
Theorem verdict_depends_on_data_only (name : string)
    (context1 context2 : gmap string pyval) :
  context1 !! "data" = context2 !! "data" ->
  validate_gate name context1 = validate_gate name context2.
Proof.
  intros Hd. unfold validate_gate.
  destruct (GATE_VALIDATORS !! name) as [validator|] eqn:Hreg; [| reflexivity].
  apply (registered_reads_data_only _ _ Hreg). cbn [data]. rewrite Hd. reflexivity.
Qed.

Lemma verdict_depends_on_data_only_witness :
  validate_gate "source_coverage" (<[ "phase" := PStr "synthesis" ]> well_sourced) =
  validate_gate "source_coverage" well_sourced.
Proof.
  refine (verdict_depends_on_data_only "source_coverage"
            (<[ "phase" := PStr "synthesis" ]> well_sourced) well_sourced _).
  vm_compute; reflexivity.
Defined.

Lemma registered_needs_dict name validator :
  GATE_VALIDATORS !! name = Some validator ->
  forall ctx, (forall d, data ctx <> PDict d) -> validator ctx = Raise AttributeError.
Proof.
  intros Hreg ctx Hd.
  each_gate Hreg;
    [ unfold validate_input_clarity | unfold validate_source_coverage
    | unfold validate_synthesis_quality | unfold validate_requirements_clarity
    | unfold validate_code_quality | unfold validate_test_coverage
    | unfold validate_no_regressions | unfold validate_review_completeness
    | unfold validate_security_check | unfold validate_decision_clarity
    | unfold validate_perspective_coverage | unfold validate_decision_confidence
    | unfold validate_memory_relevance ];
    (destruct (data ctx) as [| | | | | |d]; [reflexivity .. | destruct (Hd d eq_refl)]).
Qed.

(** X7. For every registered gate, a context whose [data] is not a dictionary
    (a list, a string, a number, [None]) makes [validate_gate] raise
    [AttributeError] instead of returning a verdict. *)
Theorem data_not_a_dict_raises (name : string) (context : gmap string pyval)
    (v : pyval) :
  is_Some (GATE_VALIDATORS !! name) ->
  context !! "data" = Some v ->
  (forall d, v <> PDict d) ->
  validate_gate name context = Raise AttributeError.
Proof.
  intros [validator Hreg] Hv Hd. unfold validate_gate. rewrite Hreg.
  apply (registered_needs_dict _ _ Hreg). cbn [data]. rewrite Hv. exact Hd.
Qed.

Lemma data_not_a_dict_raises_witness :
  validate_gate "code_quality" listed_data = Raise AttributeError.
Proof.
  refine (data_not_a_dict_raises "code_quality" listed_data (PList [PInt 1]) _ _ _);
    [eexists; reflexivity | reflexivity | intros d; discriminate].
Defined.

Lemma registered_without_data name validator :
  GATE_VALIDATORS !! name = Some validator ->
  forall ctx, data ctx = PDict ∅ ->
  exists r, validator ctx = Ret r /\ passed r = false.
Proof.
  intros Hreg ctx Hd.
  rewrite (registered_reads_data_only _ _ Hreg ctx (context_of ∅) Hd).
  each_gate Hreg; eexists; (split; [vm_compute; reflexivity | reflexivity]).
Qed.

(** X8. For every registered gate, a context without [data] gets a verdict,
    and that verdict has not passed. *)
Theorem missing_data_never_passes (name : string) (context : gmap string pyval) :
  is_Some (GATE_VALIDATORS !! name) ->
  context !! "data" = None ->
  exists r, validate_gate name context = Ret r /\ passed r = false.
Proof.
  intros [validator Hreg] Hd. unfold validate_gate. rewrite Hreg, Hd.
  apply (registered_without_data _ _ Hreg). reflexivity.
Qed.

Lemma missing_data_never_passes_witness :
  exists r,
    validate_gate "security_check" {[ "phase" := PStr "review" ]} = Ret r /\
    passed r = false.
Proof.
  refine (missing_data_never_passes "security_check" {[ "phase" := PStr "review" ]} _ _);
    [eexists; reflexivity | reflexivity].
Defined.

(** *** The command line of the gates *)

(** X9. With no readable input, the command line prints a verdict and exits
    with status 1 for each of the 13 registered gates, whose verdict has not
    passed, and with status 0 for any other gate name, which passes. *)
Theorem main_without_input (gate agent : string) :
  exists r,
    main gate agent None =
      Ret (r, if bool_decide (gate ∈ registry.*1) then 1%Z else 0%Z) /\
    passed r = negb (bool_decide (gate ∈ registry.*1)).
Proof.
  unfold main. cbn [default from_option id].
  case_bool_decide as Hin.
  - apply registered_names in Hin as [validator Hreg].
    unfold validate_gate. rewrite Hreg.
    match goal with
    | |- context [validator ?ctx] =>
        destruct (registered_without_data _ _ Hreg ctx eq_refl) as (r & Hr & Hp)
    end.
    exists r. rewrite Hr. cbn [bind]. rewrite Hp. split; reflexivity.
  - assert (GATE_VALIDATORS !! gate = None) as Hnone.
    { apply eq_None_not_Some. intros Hsome. apply Hin, registered_names, Hsome. }
    unfold validate_gate. rewrite Hnone. cbn [bind passed].
    eexists. split; reflexivity.
Qed.

(** X10. When the command line returns, the exit code is 0 for a verdict that
    passed and 1 otherwise; a verdict that blocks exits with 1, a gate name
    without a validator exits with 0, and the verdict printed carries the
    gate name of the command line. *)
Theorem main_exit_code (gate agent : string) (stdin : option pyval)
    (r : QualityGateResult) (code : Z) :
  main gate agent stdin = Ret (r, code) ->
  (code = 0%Z /\ passed r = true \/ code = 1%Z /\ passed r = false) /\
  (blocking r = true -> code = 1%Z) /\
  (GATE_VALIDATORS !! gate = None -> code = 0%Z) /\
  gate_name r = gate.
Proof.
  unfold main.
  destruct (default (PDict ∅) stdin) as [| | | | | |context]; try discriminate.
  cbv zeta. intros H. returned H. injection H as <- <-.
  destruct (validate_gate_well_formed _ _ _ E) as (Hname & Hblock & _).
  repeat split.
  - destruct (passed v); [left | right]; split; reflexivity.
  - intros Hb. rewrite (Hblock Hb). reflexivity.
  - intros Hnone. unfold validate_gate in E. rewrite Hnone in E.
    injection E as <-. reflexivity.
  - exact Hname.
Qed.

Lemma main_exit_code_witness :
  exists r code,
    main "security_check" "reviewer" (Some (PDict one_check_met)) = Ret (r, code) /\
    code = 1%Z.
Proof.
  eexists _, _. split; [vm_compute; reflexivity |].
  refine (proj1 (proj2 (main_exit_code "security_check" "reviewer"
                          (Some (PDict one_check_met)) _ _ _)) _);
    [vm_compute; reflexivity | reflexivity].
Defined.

(** *** Pass rules *)

(** X11. On a context whose data and security checks are dictionaries,
    [validate_security_check] passes exactly when the five indicators are
    met, blocks exactly when it does not pass, and suggests to verify each
    unmet indicator, in the order of the checks. *)
Theorem security_check_passes_iff_all_met (ctx : GateContext)
    (d checks : gmap string pyval) :
  data ctx = PDict d ->
  default (PDict ∅) (d !! "security_checks") = PDict checks ->
  exists r,
    validate_security_check ctx = Ret r /\
    passed r = forallb (indicator_met checks) security_indicators /\
    blocking r = negb (passed r) /\
    suggestions r =
      (fun item => [Lit "Verify "; Fmt (PStr (replace_char "_" " " item))])
        <$> List.filter (fun item => negb (indicator_met checks item)) security_indicators.
Proof.
  intros Hd Hchecks.
  unfold validate_security_check. rewrite Hd.
  change (py_get (PDict d) "security_checks" (PDict ∅))
    with (Ret (default (PDict ∅) (d !! "security_checks"))).
  rewrite Hchecks.
  cbn [bind for_each security_items py_get].
  unfold security_indicators. cbn [forallb List.filter].
  unfold indicator_met.
  destruct (truthy (default (PBool false) (checks !! "input_validation")));
  destruct (truthy (default (PBool false) (checks !! "output_encoding")));
  destruct (truthy (default (PBool false) (checks !! "auth_checks")));
  destruct (truthy (default (PBool false) (checks !! "no_data_exposure")));
  destruct (truthy (default (PBool false) (checks !! "injection_prevention")));
  (eexists; split; [reflexivity |]; repeat split; vm_compute; reflexivity).
Qed.

Lemma security_check_passes_iff_all_met_witness :
  exists r,
    validate_security_check (context_of security_reviewed) = Ret r /\
    passed r = forallb (indicator_met four_checks_met) security_indicators /\
    blocking r = negb (passed r) /\
    suggestions r =
      (fun item => [Lit "Verify "; Fmt (PStr (replace_char "_" " " item))])
        <$> List.filter (fun item => negb (indicator_met four_checks_met item))
              security_indicators.
Proof.
  refine (security_check_passes_iff_all_met (context_of security_reviewed)
            security_reviewed four_checks_met _ _);
    vm_compute; reflexivity.
Defined.

(** X12. On a context whose data and reviewed dimensions are dictionaries,
    [validate_review_completeness] passes exactly when correctness and
    security were reviewed and at most one of performance, maintainability
    and test coverage was not; a verdict that has not passed suggests to
    review each missing dimension, in the order of the weights. *)
Theorem review_completeness_pass_rule (ctx : GateContext)
    (d dimensions : gmap string pyval) :
  data ctx = PDict d ->
  default (PDict ∅) (d !! "dimensions_reviewed") = PDict dimensions ->
  exists r,
    validate_review_completeness ctx = Ret r /\
    passed r = met dimensions false "correctness" && met dimensions false "security"
               && at_most_one_unmet (met dimensions false "performance")
                    (met dimensions false "maintainability")
                    (met dimensions false "test_coverage") /\
    suggestions r =
      (if passed r then []
       else (fun dim => [Lit "Review "; Fmt (PStr dim); Lit " dimension"])
              <$> List.filter (fun dim => negb (met dimensions false dim))
                    dimension_weights.*1).
Proof.
  intros Hd Hdims.
  unfold validate_review_completeness. rewrite Hd.
  change (py_get (PDict d) "dimensions_reviewed" (PDict ∅))
    with (Ret (default (PDict ∅) (d !! "dimensions_reviewed"))).
  rewrite Hdims.
  cbn [bind for_each dimension_weights py_get count_truthy fmap list_fmap fst List.filter].
  unfold met.
  destruct (truthy (default (PBool false) (dimensions !! "correctness")));
  destruct (truthy (default (PBool false) (dimensions !! "security")));
  destruct (truthy (default (PBool false) (dimensions !! "performance")));
  destruct (truthy (default (PBool false) (dimensions !! "maintainability")));
  destruct (truthy (default (PBool false) (dimensions !! "test_coverage")));
  (eexists; split; [reflexivity |]; split; vm_compute; reflexivity).
Qed.

Lemma review_completeness_pass_rule_witness :
  exists r,
    validate_review_completeness (context_of reviewed) = Ret r /\
    passed r = met four_dimensions false "correctness"
               && met four_dimensions false "security"
               && at_most_one_unmet (met four_dimensions false "performance")
                    (met four_dimensions false "maintainability")
                    (met four_dimensions false "test_coverage") /\
    suggestions r =
      (if passed r then []
       else (fun dim => [Lit "Review "; Fmt (PStr dim); Lit " dimension"])
              <$> List.filter (fun dim => negb (met four_dimensions false dim))
                    dimension_weights.*1).
Proof.
  refine (review_completeness_pass_rule (context_of reviewed) reviewed four_dimensions
            _ _);
    vm_compute; reflexivity.
Defined.

(** X13. On a context whose data and quality checks are dictionaries,
    [validate_code_quality] passes exactly when the types and the error
    handling are there and at most one of the three other checks fails,
    where a missing [no_debug_code] counts as met. *)
Theorem code_quality_pass_rule (ctx : GateContext) (d checks : gmap string pyval) :
  data ctx = PDict d ->
  default (PDict ∅) (d !! "quality_checks") = PDict checks ->
  exists r,
    validate_code_quality ctx = Ret r /\
    passed r = met checks false "typescript_types" && met checks false "error_handling"
               && at_most_one_unmet (met checks true "no_debug_code")
                    (met checks false "follows_patterns")
                    (met checks false "comments_explain_why").
Proof.
  intros Hd Hchecks.
  unfold validate_code_quality. rewrite Hd.
  change (py_get (PDict d) "quality_checks" (PDict ∅))
    with (Ret (default (PDict ∅) (d !! "quality_checks"))).
  rewrite Hchecks.
  cbn [bind py_get].
  unfold met.
  destruct (truthy (default (PBool false) (checks !! "typescript_types")));
  destruct (truthy (default (PBool false) (checks !! "error_handling")));
  destruct (truthy (default (PBool true) (checks !! "no_debug_code")));
  destruct (truthy (default (PBool false) (checks !! "follows_patterns")));
  destruct (truthy (default (PBool false) (checks !! "comments_explain_why")));
  (eexists; split; [reflexivity |]; cbn [passed]; vm_compute; reflexivity).
Qed.

Lemma code_quality_pass_rule_witness :
  exists r,
    validate_code_quality (context_of typed_and_handled) = Ret r /\
    passed r = met two_checks false "typescript_types"
               && met two_checks false "error_handling"
               && at_most_one_unmet (met two_checks true "no_debug_code")
                    (met two_checks false "follows_patterns")
                    (met two_checks false "comments_explain_why").
Proof.
  refine (code_quality_pass_rule (context_of typed_and_handled) typed_and_handled
            two_checks _ _);
    vm_compute; reflexivity.
Defined.

(** X14. For a query that is a non-empty string, [validate_input_clarity]
    never passes under 5 words, and blocks then; from 10 to 100 words it
    passes when the query has a question marker or a technical term; with 5
    to 9 words, or more than 100, it passes when the query has both. *)
Theorem input_clarity_pass_rule (ctx : GateContext) (d : gmap string pyval)
    (q : string) :
  data ctx = PDict d ->
  default (PStr "") (d !! "query") = PStr q -> q <> "" ->
  let n := word_count q in
  let asks := mentions question_markers q in
  let technical := mentions tech_indicators q in
  exists r,
    validate_input_clarity ctx = Ret r /\
    passed r = (if (n <? 5)%Z then false
                else if (10 <=? n)%Z && (n <=? 100)%Z then asks || technical
                else asks && technical) /\
    ((n < 5)%Z -> blocking r = true).
Proof.
  intros Hd Hq Hne.
  unfold validate_input_clarity, any_in_lower. rewrite Hd.
  change (py_get (PDict d) "query" (PStr ""))
    with (Ret (default (PStr "") (d !! "query"))).
  cbn [bind]. rewrite Hq, (truthy_str q Hne).
  cbn [negb bind py_split py_lower]. cbv zeta.
  unfold word_count, mentions.
  generalize (existsb (fun t => contains t (lower q)) tech_indicators) as technical.
  generalize (existsb (fun t => contains t (lower q)) question_markers) as asks.
  generalize (Z.of_nat (length (split q))) as n.
  intros n asks technical.
  rewrite (Z.ltb_antisym 5 n).
  destruct (5 <=? n)%Z eqn:E5, (10 <=? n)%Z eqn:E10, (n <=? 100)%Z eqn:E100,
           asks, technical;
    try (exfalso; lia);
    (eexists; split; [reflexivity |]; cbn [passed blocking];
     split; [vm_compute; reflexivity |];
     first [ intros _; vm_compute; reflexivity | intros; exfalso; lia ]).
Qed.

Lemma input_clarity_pass_rule_witness :
  exists r,
    validate_input_clarity (context_of clear_query) = Ret r /\
    passed r = true.
Proof.
  assert (default (PStr "") (clear_query !! "query") = PStr twelve_words) as Hq
    by (vm_compute; reflexivity).
  destruct (input_clarity_pass_rule (context_of clear_query) clear_query twelve_words
              eq_refl Hq ltac:(discriminate))
    as (r & Hr & Hp & _).
  exists r. split; [exact Hr |].
  rewrite Hp. vm_compute. reflexivity.
Defined.

Lemma awarded_succ_r n w s : awarded (S n) w s = awarded n w (s + w)%float.
Proof. exact (Nat.iter_succ_r n (fun x => (x + w)%float) s). Qed.

(** The loop of [validate_perspective_coverage] over any list of
    perspectives. *)
Lemma perspective_loop (ps : gmap string pyval) (l : list string) (k : Z) (t : tally) :
  for_each
    (fun (ct : Z * tally) perspective =>
       c <- py_get (PDict ps) perspective PNone ;;
       Ret (if truthy c then ((ct.1 + 1)%Z, award (1 / 6 * 0.9)%float ct.2)
            else (ct.1,
                  suggest [Lit "Analyze ";
                           Fmt (PStr (replace_char "_" " " perspective));
                           Lit " perspective"] ct.2)))
    l (k, t) =
  Ret ((k + Z.of_nat (length (List.filter (perspective_met ps) l)))%Z,
       {| points := awarded (length (List.filter (perspective_met ps) l))
                      (1 / 6 * 0.9)%float t.(points);
          advice := t.(advice) ++
                    ((fun p => [Lit "Analyze "; Fmt (PStr (replace_char "_" " " p));
                                Lit " perspective"])
                       <$> List.filter (fun p => negb (perspective_met ps p)) l) |}).
Proof.
  revert k t. induction l as [|p l IH]; intros k t.
  - cbn [for_each List.filter length fmap list_fmap awarded Nat.iter].
    rewrite Z.add_0_r, app_nil_r. destruct t; reflexivity.
  - cbn [for_each py_get bind List.filter].
    fold (perspective_met ps p).
    destruct (perspective_met ps p); cbn [negb fst snd length]; rewrite IH.
    + rewrite awarded_succ_r. cbn [award points advice].
      do 2 f_equal. lia.
    + cbn [suggest points advice fmap list_fmap]. rewrite <- app_assoc. reflexivity.
Qed.

(** X15. On a context whose data and perspectives are dictionaries,
    [validate_perspective_coverage] passes exactly when the six perspectives
    are covered, or five of them and the weights were assigned; the feedback
    counts the covered perspectives, and a verdict that has not passed
    suggests to analyze each missing perspective, in order. *)
Theorem perspective_coverage_pass_rule (ctx : GateContext)
    (d perspectives : gmap string pyval) :
  data ctx = PDict d ->
  default (PDict ∅) (d !! "perspectives") = PDict perspectives ->
  let covered := length (List.filter (perspective_met perspectives) required_perspectives) in
  let weighted := truthy (default (PBool false) (d !! "weights_assigned")) in
  exists r,
    validate_perspective_coverage ctx = Ret r /\
    passed r = ((6 <=? covered)%nat || (5 <=? covered)%nat && weighted) /\
    feedback r = [Lit "Perspective coverage: "; Fmt (PInt (Z.of_nat covered));
                  Lit "/6 perspectives analyzed";
                  Lit (if passed r then " - Comprehensive analysis"
                       else " - Missing perspectives")] /\
    suggestions r =
      (if passed r then []
       else (fun p => [Lit "Analyze "; Fmt (PStr (replace_char "_" " " p));
                       Lit " perspective"])
              <$> List.filter (fun p => negb (perspective_met perspectives p))
                    required_perspectives).
Proof.
  intros Hd Hps covered weighted.
  unfold validate_perspective_coverage. rewrite Hd.
  change (py_get (PDict d) "perspectives" (PDict ∅))
    with (Ret (default (PDict ∅) (d !! "perspectives"))).
  rewrite Hps. cbn [bind].
  rewrite perspective_loop. cbn [bind py_get fst snd].
  fold weighted. fold covered.
  assert (covered <= 6)%nat as Hle by apply List.filter_length_le.
  generalize dependent covered. intros covered Hle.
  generalize ((fun p => [Lit "Analyze "; Fmt (PStr (replace_char "_" " " p));
                         Lit " perspective"])
                <$> List.filter (fun p => negb (perspective_met perspectives p))
                      required_perspectives) as unmet.
  intros unmet.
  destruct weighted;
    do 7 (try destruct covered as [|covered]); try (exfalso; lia);
    (eexists; split; [reflexivity |]; cbn [passed feedback suggestions];
     repeat split; vm_compute; reflexivity).
Qed.

Lemma perspective_coverage_pass_rule_witness :
  exists r,
    validate_perspective_coverage (context_of five_perspectives) = Ret r /\
    passed r = true.
Proof.
  destruct (perspective_coverage_pass_rule (context_of five_perspectives)
              five_perspectives five_covered eq_refl ltac:(vm_compute; reflexivity))
    as (r & Hr & Hp & _).
  exists r. split; [exact Hr |].
  rewrite Hp. vm_compute. reflexivity.
Defined.

(** X16. On a context whose data and source counts are numbers,
    [validate_source_coverage] passes by tiers: never under 3 sources; with 3
    or 4, when files were read, web sources used and 2 patterns found; with
    5 to 9, when two of these three hold; with 10 or more, when one does. A
    verdict that has not passed suggests to search the codebase when no file
    was read, and nothing else. *)
Theorem source_coverage_pass_rule (ctx : GateContext) (d : gmap string pyval)
    (sources files web patterns : number) :
  data ctx = PDict d ->
  as_number (default (PInt 0) (d !! "sources_examined")) = Some sources ->
  as_number (default (PInt 0) (d !! "files_read")) = Some files ->
  as_number (default (PInt 0) (d !! "web_sources")) = Some web ->
  as_number (default (PInt 0) (d !! "patterns_found")) = Some patterns ->
  let a := num_gt files (NInt 0) in
  let b := num_gt web (NInt 0) in
  let c := num_ge patterns (NInt 2) in
  exists r,
    validate_source_coverage ctx = Ret r /\
    passed r = (if num_ge sources (NInt 10) then a || b || c
                else if num_ge sources (NInt 5) then at_most_one_unmet a b c
                else if num_ge sources (NInt 3) then a && b && c
                else false) /\
    suggestions r = (if passed r || a then []
                     else [[Lit "Search codebase for relevant patterns"]]).
Proof.
  intros Hd Hs Hf Hw Hp a b c.
  unfold validate_source_coverage. rewrite Hd. cbn [py_get bind].
  unfold py_ge, py_gt. rewrite Hs, Hf, Hw, Hp. cbn [bind].
  fold a b c.
  destruct (num_ge sources (NInt 10)) eqn:E10, (num_ge sources (NInt 5)) eqn:E5,
           (num_ge sources (NInt 3)) eqn:E3, a, b, c;
    try solve [pose proof (num_ge_int_mono sources 5 10 ltac:(lia) E10); congruence];
    try solve [pose proof (num_ge_int_mono sources 3 5 ltac:(lia) E5); congruence];
    (eexists; split; [reflexivity |]; cbn [passed suggestions];
     split; vm_compute; reflexivity).
Qed.

Lemma source_coverage_pass_rule_witness :
  exists r,
    validate_source_coverage (context_of five_sources) = Ret r /\
    passed r = false /\ suggestions r = [].
Proof.
  destruct (source_coverage_pass_rule (context_of five_sources) five_sources
              (NInt 5) (NInt 3) (NInt 0) (NInt 0) eq_refl
              ltac:(vm_compute; reflexivity) ltac:(vm_compute; reflexivity)
              ltac:(vm_compute; reflexivity) ltac:(vm_compute; reflexivity))
    as (r & Hr & Hp & Hs).
  exists r. split; [exact Hr |].
  rewrite Hs, Hp. split; vm_compute; reflexivity.
Defined.

(** X17. When the question (longer than 20 characters or not) and the
    numbers of options, constraints and success criteria can be read,
    [validate_decision_clarity] passes exactly when the question is longer
    than 20 characters, there are 2 options and 1 success criterion: the
    constraints do not decide. *)
Theorem decision_clarity_pass_rule (ctx : GateContext) (d : gmap string pyval)
    (clear : bool) (n_options n_constraints n_criteria : Z) :
  data ctx = PDict d ->
  longer_than (default (PStr "") (d !! "question")) 20 = Ret clear ->
  py_len (default (PList []) (d !! "options")) = Ret n_options ->
  py_len (default (PList []) (d !! "constraints")) = Ret n_constraints ->
  py_len (default (PList []) (d !! "success_criteria")) = Ret n_criteria ->
  exists r,
    validate_decision_clarity ctx = Ret r /\
    passed r = clear && (2 <=? n_options)%Z && (1 <=? n_criteria)%Z.
Proof.
  intros Hd Hq Ho Hc Hs.
  unfold validate_decision_clarity. rewrite Hd. cbn [py_get bind].
  rewrite Hq, Ho, Hc, Hs. cbn [bind].
  destruct clear, (2 <=? n_options)%Z, (1 <=? n_constraints)%Z, (1 <=? n_criteria)%Z;
    (eexists; split; [reflexivity |]; cbn [passed]; vm_compute; reflexivity).
Qed.

Lemma decision_clarity_pass_rule_witness :
  exists r,
    validate_decision_clarity (context_of framed) = Ret r /\
    passed r = true && (2 <=? 2)%Z && (1 <=? 1)%Z.
Proof.
  refine (decision_clarity_pass_rule (context_of framed) framed true 2 0 1 eq_refl _ _ _ _);
    vm_compute; reflexivity.
Defined.

(** X18. A verdict of [validate_test_coverage] that passed was given for at
    least one added test and a coverage of at least 60. *)
Theorem test_coverage_needs_tests_and_coverage (ctx : GateContext)
    (r : QualityGateResult) :
  validate_test_coverage ctx = Ret r ->
  passed r = true ->
  exists d,
    data ctx = PDict d /\
    py_ge (default (PInt 0) (d !! "tests_added")) (NInt 1) = Ret true /\
    py_ge (default (PInt 0) (d !! "coverage_percent")) (NInt 60) = Ret true.
Proof.
  unfold validate_test_coverage. intros H Hp.
  destruct (data ctx) as [| | | | | |d]; try discriminate H.
  exists d. split; [reflexivity |].
  cbn [py_get bind] in H.
  destruct (default (PDict ∅) (d !! "test_types")) as [| | | | | |types];
    try (returned H; discriminate).
  cbn [py_get bind] in H.
  generalize dependent (truthy (default PNone (types !! "happy_path"))).
  generalize dependent (truthy (default PNone (types !! "edge_cases"))).
  generalize dependent (truthy (default PNone (types !! "error_handling"))).
  intros errors edges happy H.
  destruct (py_ge (default (PInt 0) (d !! "tests_added")) (NInt 1)) as [c1|];
    [| discriminate H].
  destruct (py_ge (default (PInt 0) (d !! "tests_added")) (NInt 3)) as [c3|];
    [| destruct c1; discriminate H].
  destruct (py_ge (default (PInt 0) (d !! "coverage_percent")) (NInt 80)) as [high|] eqn:E80;
    [| destruct c1, c3; discriminate H].
  cbn [bind] in H.
  destruct high.
  - assert (py_ge (default (PInt 0) (d !! "coverage_percent")) (NInt 60) = Ret true) as ->.
    { revert E80. unfold py_ge.
      destruct (as_number (default (PInt 0) (d !! "coverage_percent"))) as [x|];
        [| discriminate].
      intros [= E]. f_equal. apply (num_ge_int_mono_60_80 x E). }
    split; [| reflexivity].
    destruct c1; [reflexivity |].
    destruct c3, errors, edges, happy; cbn [bind] in H; injection H as <-;
      vm_compute in Hp; discriminate.
  - destruct (py_ge (default (PInt 0) (d !! "coverage_percent")) (NInt 60)) as [medium|];
      [| destruct c1, c3; discriminate H].
    cbn [bind] in H.
    destruct c1, c3, medium, errors, edges, happy; cbn [bind] in H; injection H as <-;
      vm_compute in Hp; first [discriminate | split; reflexivity].
Qed.

Lemma test_coverage_needs_tests_and_coverage_witness :
  exists r,
    validate_test_coverage (context_of lightly_tested) = Ret r /\
    passed r = true /\
    exists d,
      data (context_of lightly_tested) = PDict d /\
      py_ge (default (PInt 0) (d !! "tests_added")) (NInt 1) = Ret true /\
      py_ge (default (PInt 0) (d !! "coverage_percent")) (NInt 60) = Ret true.
Proof.
  eexists. split; [vm_compute; reflexivity |]. split; [reflexivity |].
  refine (test_coverage_needs_tests_and_coverage (context_of lightly_tested) _ _ _);
    [vm_compute; reflexivity | reflexivity].
Defined.

(** *** Scores taken from the context *)

(** X19. A verdict of [validate_decision_confidence] given for a rationale
    longer than 50 characters or for a dissenting view has a float score of
    at most 1.0; with neither, the score is the confidence of the
    recommendation as it came. *)
Theorem decision_confidence_capped_by_bonus (ctx : GateContext)
    (d recommendation : gmap string pyval) (r : QualityGateResult) :
  data ctx = PDict d ->
  default (PDict ∅) (d !! "recommendation") = PDict recommendation ->
  validate_decision_confidence ctx = Ret r ->
  let rationale := default (PStr "") (recommendation !! "rationale") in
  let dissenting_view := default (PStr "") (d !! "dissenting_view") in
  (longer_than rationale 50 = Ret true \/ truthy dissenting_view = true ->
   exists s, score r = PFloat s /\ (s <=? 1)%float = true) /\
  (longer_than rationale 50 = Ret false -> truthy dissenting_view = false ->
   score r = default (PInt 0) (recommendation !! "confidence")).
Proof.
  intros Hd Hrec H rationale dissenting_view.
  unfold validate_decision_confidence in H. rewrite Hd in H.
  change (py_get (PDict d) "recommendation" (PDict ∅))
    with (Ret (default (PDict ∅) (d !! "recommendation"))) in H.
  rewrite Hrec in H. cbn [bind py_get] in H.
  fold rationale dissenting_view in H.
  destruct (longer_than rationale 50) as [long|] eqn:Hlong; [| discriminate H].
  cbn [bind] in H.
  destruct long, (truthy dissenting_view) eqn:Hdis;
    returned H; injection H as <-; cbn [score];
    repeat match goal with
           | E : Ret _ = Ret _ |- _ => injection E as <-
           end;
    (split; [intros Hb | intros Hl Hf; try discriminate; try reflexivity]);
    try solve [eapply capped_bonus_le_1; eassumption];
    destruct Hb; discriminate.
Qed.

Lemma decision_confidence_capped_by_bonus_witness :
  exists r,
    validate_decision_confidence (context_of argued) = Ret r /\
    exists s, score r = PFloat s /\ (s <=? 1)%float = true.
Proof.
  eexists. split; [vm_compute; reflexivity |].
  refine (proj1 (decision_confidence_capped_by_bonus (context_of argued) argued
                   sure
                   _ eq_refl _ _) _);
    [vm_compute; reflexivity | vm_compute; reflexivity | right; vm_compute; reflexivity].
Defined.

Lemma relevance_loop (items : list pyval) (k : Z) :
  Forall rated items ->
  for_each
    (fun (k : Z) m =>
       r <- py_get m "relevance" (PInt 0) ;;
       c <- py_ge r (NFloat 0.7%float) ;;
       Ret (if c then (k + 1)%Z else k))
    items k =
  Ret (k + Z.of_nat (length (List.filter highly_relevant items)))%Z.
Proof.
  intros Hitems. revert k. induction Hitems as [|m items (g & x & -> & Hx) _ IH]; intros k.
  - cbn. rewrite Z.add_0_r. reflexivity.
  - cbn [for_each py_get bind List.filter highly_relevant]. unfold py_ge. rewrite Hx.
    cbn [bind]. rewrite IH.
    destruct (num_ge x (NFloat 0.7%float)); cbn [length]; f_equal; lia.
Qed.

(** X20. For a non-empty list of matches that are dictionaries with numeric
    relevances and a numeric top relevance, [validate_memory_relevance]
    returns a verdict that never blocks and passes when its score reaches
    0.7; the score is the top relevance as the context gives it, or, when two
    matches at least have a relevance of 0.7 or more, that relevance plus 0.1
    capped at 1.0. *)
Theorem memory_relevance_score_rule (ctx : GateContext) (d : gmap string pyval)
    (matches : list pyval) (top_relevance : pyval) (n : number) (f : float) :
  data ctx = PDict d ->
  d !! "matches" = Some (PList matches) ->
  matches <> [] ->
  Forall rated matches ->
  default (PInt 0) (d !! "top_relevance") = top_relevance ->
  as_number top_relevance = Some n ->
  to_float n = Ret f ->
  exists r,
    validate_memory_relevance ctx = Ret r /\
    score r = (if (2 <=? length (List.filter highly_relevant matches))%nat
               then PFloat (py_min 1 (f + 0.1)%float) else top_relevance) /\
    py_ge (score r) (NFloat 0.7%float) = Ret (passed r) /\
    blocking r = false.
Proof.
  intros Hd Hm Hne Hrated Htop Hn Hf.
  unfold validate_memory_relevance. rewrite Hd. cbn [py_get bind].
  rewrite Hm, Htop. cbn [from_option id].
  assert (truthy (PList matches) = true) as -> by (destruct matches; [contradiction | reflexivity]).
  cbn [negb py_iter bind]. rewrite (relevance_loop _ _ Hrated). cbn [bind].
  rewrite Z.add_0_l.
  replace (2 <=? Z.of_nat (length (List.filter highly_relevant matches)))%Z
    with (2 <=? length (List.filter highly_relevant matches))%nat
    by (destruct (Nat.leb_spec 2 (length (List.filter highly_relevant matches)));
        symmetry; [apply Z.leb_le | apply Z.leb_gt]; lia).
  unfold fmt_2f. rewrite Hn, Hf. cbn [bind].
  destruct (2 <=? length (List.filter highly_relevant matches))%nat.
  - unfold capped_bonus, py_add. rewrite Hn, Hf. cbn [bind py_ge as_number py_len].
    eexists. repeat split.
  - cbn [bind]. unfold py_ge. rewrite Hn. cbn [bind py_len].
    eexists. split; [reflexivity |]. cbn [score passed blocking].
    rewrite Hn. repeat split.
Qed.

Lemma memory_relevance_score_rule_witness :
  exists r,
    validate_memory_relevance (context_of recalled) = Ret r /\
    score r = (if (2 <=? length (List.filter highly_relevant three_matches))%nat
               then PFloat (py_min 1 (0.65 + 0.1)%float) else PFloat 0.65) /\
    py_ge (score r) (NFloat 0.7%float) = Ret (passed r) /\
    blocking r = false.
Proof.
  refine (memory_relevance_score_rule (context_of recalled) recalled three_matches
            (PFloat 0.65) (NFloat 0.65) 0.65%float eq_refl _ _ _ _ eq_refl eq_refl).
  - vm_compute; reflexivity.
  - discriminate.
  - repeat constructor; eexists _, _; (split; [reflexivity | vm_compute; reflexivity]).
  - vm_compute; reflexivity.
Defined.

(** *** Protocol events *)

Ltac each_builder Hreg :=
  unfold ProtocolEvent.EVENT_BUILDERS, ProtocolEvent.builders in Hreg;
  apply elem_of_list_to_map_2 in Hreg;
  repeat (apply elem_of_cons in Hreg as [Hreg | Hreg];
          [injection Hreg as -> -> |]);
  [.. | apply elem_of_nil in Hreg as []].

(** X21. Every builder of [EVENT_BUILDERS] stamps its events with the event
    type it is registered under, the agent it was given and the protocol
    version 2.0. *)
Theorem builders_stamp_their_events (event_type agent : string)
    (builder : string -> gmap string pyval -> result ProtocolEvent.event)
    (payload : gmap string pyval) (ev : ProtocolEvent.event) :
  ProtocolEvent.EVENT_BUILDERS !! event_type = Some builder ->
  builder agent payload = Ret ev ->
  ev !! "event_type" = Some (ProtocolEvent.Plain (PStr event_type)) /\
  ev !! "agent_type" = Some (ProtocolEvent.Plain (PStr agent)) /\
  ev !! "protocol_version" = Some (ProtocolEvent.Plain (PStr "2.0")).
Proof.
  intros Hreg H.
  each_builder Hreg;
    try (injection H as <-; repeat split; reflexivity).
  returned H. unfold ProtocolEvent.build_gate_event in E. returned E.
  injection E as <-. injection H as <-.
  repeat split; reflexivity.
Qed.

Lemma builders_stamp_their_events_witness :
  exists ev,
    ProtocolEvent.build_handoff_event "researcher"
      {[ "to_agent" := PStr "implementer" ]} = ev /\
    ev !! "event_type" = Some (ProtocolEvent.Plain (PStr "handoff")) /\
    ev !! "agent_type" = Some (ProtocolEvent.Plain (PStr "researcher")) /\
    ev !! "protocol_version" = Some (ProtocolEvent.Plain (PStr "2.0")).
Proof.
  eexists. split; [reflexivity |].
  refine (builders_stamp_their_events "handoff" "researcher"
            (fun agent payload => Ret (ProtocolEvent.build_handoff_event agent payload))
            {[ "to_agent" := PStr "implementer" ]} _ _ _); reflexivity.
Defined.

(** X22. The envelope the emitter sends is routed as a ProtocolEvent, a
    QualityGate or an AgentHandoff: as a QualityGate exactly for a gate
    event and as an AgentHandoff exactly for a handoff. *)
Theorem envelope_routing (agent event_type : string) (stdin : option pyval)
    (e : ProtocolEvent.envelope) :
  ProtocolEvent.main agent event_type stdin = Ret (Some e) ->
  ProtocolEvent.hook_event_type e ∈ ["ProtocolEvent"; "QualityGate"; "AgentHandoff"] /\
  (ProtocolEvent.hook_event_type e = "QualityGate" <-> event_type = "gate") /\
  (ProtocolEvent.hook_event_type e = "AgentHandoff" <-> event_type = "handoff").
Proof.
  unfold ProtocolEvent.main.
  destruct (ProtocolEvent.EVENT_BUILDERS !! event_type) as [builder|] eqn:Hreg;
    [| discriminate].
  intros H. returned H. injection H as <-. cbn [ProtocolEvent.hook_event_type]. clear E.
  each_builder Hreg; vm_compute; (split; [| split; split; congruence]);
    repeat constructor.
Qed.

Lemma envelope_routing_witness :
  exists e,
    ProtocolEvent.main "reviewer" "gate" (Some (PDict reported)) = Ret (Some e) /\
    ProtocolEvent.hook_event_type e = "QualityGate".
Proof.
  eexists. split; [vm_compute; reflexivity |].
  refine (proj2 (proj1 (proj2 (envelope_routing "reviewer" "gate"
                                 (Some (PDict reported)) _ _))) eq_refl).
  vm_compute; reflexivity.
Defined.

(** X23. [build_gate_event] evaluates [score >= 0.8] whether the payload has
    a [passed] field or not: a score that is not a number raises [TypeError];
    with a numeric score, the event carries the payload's [passed] and score
    unchanged. *)
Theorem build_gate_event_explicit_verdict (agent : string)
    (payload : gmap string pyval) :
  (as_number (default (PFloat 0%float) (payload !! "score")) = None ->
   ProtocolEvent.build_gate_event agent payload = Raise TypeError) /\
  (forall (s : number) (p : pyval),
     as_number (default (PFloat 0%float) (payload !! "score")) = Some s ->
     payload !! "passed" = Some p ->
     exists ev,
       ProtocolEvent.build_gate_event agent payload = Ret ev /\
       ProtocolEvent.passed ev = p /\
       ProtocolEvent.score ev = default (PFloat 0%float) (payload !! "score")).
Proof.
  unfold ProtocolEvent.build_gate_event, py_ge. cbv zeta. split.
  - intros ->. reflexivity.
  - intros s p -> ->. cbn [bind]. eexists. repeat split.
Qed.



(** X25. For a verdict of [validate_gate] of threshold 0.8, the event
    [build_gate_event] builds from a payload that carries the verdict's score
    and no [passed] field has the verdict's [passed]. *)
Theorem gate_event_agrees_with_verdict (name agent : string)
    (context payload : gmap string pyval) (r : QualityGateResult) :
  validate_gate name context = Ret r ->
  threshold r = 0.8%float ->
  payload !! "passed" = None ->
  payload !! "score" = Some (score r) ->
  exists ev,
    ProtocolEvent.build_gate_event agent payload = Ret ev /\
    ProtocolEvent.passed ev = PBool (passed r) /\
    ProtocolEvent.score ev = score r.
Proof.
  intros Hr Ht Hp Hs.
  assert (name <> "no_regressions") as Hn.
  { intros ->. unfold validate_gate in Hr.
    change (GATE_VALIDATORS !! "no_regressions") with (Some validate_no_regressions) in Hr.
    apply validate_no_regressions_threshold in Hr.
    rewrite Hr in Ht. exact (float_1_not_08 Ht). }
  pose proof (validate_gate_passed_at_threshold _ _ _ Hn Hr) as Hpass.
  unfold passed_at_threshold in Hpass. rewrite Ht in Hpass.
  unfold ProtocolEvent.build_gate_event. cbv zeta.
  rewrite Hs, Hp. cbn [default from_option id].
  change ProtocolEvent.QUALITY_GATE_THRESHOLD with 0.8%float.
  rewrite Hpass. cbn [bind]. eexists. repeat split.
Qed.

Lemma gate_event_agrees_with_verdict_witness :
  exists r,
    validate_gate "code_quality" ∅ = Ret r /\
    exists ev,
      ProtocolEvent.build_gate_event "implementer" {[ "score" := PFloat 0.15 ]} = Ret ev /\
      ProtocolEvent.passed ev = PBool (passed r) /\
      ProtocolEvent.score ev = score r.
Proof.
  eexists. split; [vm_compute; reflexivity |].
  refine (gate_event_agrees_with_verdict "code_quality" "implementer" ∅
            {[ "score" := PFloat 0.15 ]} _ _ _ _ _);
    [vm_compute; reflexivity | reflexivity | reflexivity | reflexivity].
Defined.
